(** * The model lifecycle of [base/base_model.py]

    A shallow embedding of the class [BaseModel] and of the part of the
    TensorFlow 1.x API it calls, followed by the properties of the
    lifecycle: construction order, the mode state machine, checkpoint
    directory resolution, and checkpoint load and save. *)

From Stdlib Require Import Ascii String.
From stdpp Require Import base gmap strings list pretty.

#[local] Open Scope string_scope.
#[local] Open Scope list_scope.

(** ** Python runtime *)

(** The exceptions that can surface from [BaseModel] and from the
    framework calls it makes. *)
Inductive Exception : Type :=
| NotImplementedError
| AssertionError (msg : string)
| AttributeError (attr : string)
| ValueError (msg : string)
| RuntimeError (msg : string)
| NotFoundError (msg : string)
| FailedPreconditionError (msg : string).

(** A Python call either returns a value or raises. *)
Inductive Outcome (A : Type) : Type :=
| Return (a : A)
| Raise (e : Exception).
Arguments Return {A} a.
Arguments Raise {A} e.

(** The line feed written [\n] in the source's string literals. *)
Definition nl : string := String (Ascii.ascii_of_nat 10) EmptyString.

(** ** [os.path] (POSIX flavour), as used by the framework's saver *)
Module os_path.

Definition is_sep (c : ascii) : bool := bool_decide (c = "/"%char).

Fixpoint lstrip (p : ascii → bool) (l : list ascii) : list ascii :=
  match l with
  | [] => []
  | c :: l' => if p c then lstrip p l' else l
  end.

(** [dirname p]: [head = p[:p.rfind('/')+1]], then trailing separators
    are stripped from [head] unless it consists of separators only. *)
Definition dirname (p : string) : string :=
  let head_rev := lstrip (λ c, negb (is_sep c)) (rev (list_ascii_of_string p)) in
  match lstrip is_sep head_rev with
  | [] => string_of_list_ascii (rev head_rev)
  | stripped => string_of_list_ascii (rev stripped)
  end.

Definition startswith_sep (p : string) : bool :=
  match p with
  | String c _ => is_sep c
  | EmptyString => false
  end.

Definition endswith_sep (p : string) : bool :=
  match rev (list_ascii_of_string p) with
  | c :: _ => is_sep c
  | [] => false
  end.

(** [join a b] for two components. *)
Definition join (a b : string) : string :=
  if startswith_sep b then b
  else if bool_decide (a = "") || endswith_sep a then a +:+ b
  else a +:+ "/" +:+ b.

End os_path.

(** ** The framework: graphs, variables, sessions, savers, checkpoints

    [BaseModel] is a thin wrapper over TensorFlow 1.x.  The framework is
    not part of the repository; the definitions of this section follow
    its documented behaviour, restricted to what [BaseModel] calls:
    [tf.get_default_graph], [Graph.as_default], [tf.Variable],
    [tf.global_variables_initializer], [tf.local_variables_initializer],
    [tf.group], [tf.train.Saver], [Saver.save], [Saver.restore] and
    [tf.train.latest_checkpoint]. *)

(** Graphs and sessions are Python objects; they are identified here by
    a handle.  The value of a variable is abstracted to an integer. *)
Definition GraphId : Type := nat.
Definition SessionId : Type := nat.
Definition Tensor : Type := Z.

Record Var : Type := mkVar {
  var_graph : GraphId;
  var_name : string;
  var_initial_value : Tensor;
  var_trainable : bool;
}.

#[global] Instance Var_eq_dec : EqDecision Var.
Proof. solve_decision. Defined.

(** The two collections of a graph that [BaseModel] reads. *)
Record Graph : Type := mkGraph {
  global_variables : list Var;
  local_variables : list Var;
}.

Definition empty_graph : Graph :=
  {| global_variables := []; local_variables := [] |}.

(** An initializer operation: the graph it was created in and the
    variables it initializes when run. *)
Record Operation : Type := mkOperation {
  op_graph : GraphId;
  op_initializes : list Var;
}.

(** A saver: the graph it was built in and the variables it tracks. *)
Record Saver : Type := mkSaver {
  saver_graph : GraphId;
  saver_var_list : list Var;
}.

(** A session runs one graph and holds the current value of each of its
    initialized variables, by variable name. *)
Record Session : Type := mkSession {
  sess_graph : GraphId;
  sess_values : gmap string Tensor;
}.

(** The checkpoint artefacts on disk.  [checkpoint_states] maps the path
    of a checkpoint state file (the file called [checkpoint] of a
    directory) to the [model_checkpoint_path] it records;
    [checkpoint_files] maps a checkpoint filename prefix to the variable
    values stored under it.  Paths are compared as written. *)
Record FileSystem : Type := mkFileSystem {
  checkpoint_states : gmap string string;
  checkpoint_files : gmap string (gmap string Tensor);
}.

Record World : Type := mkWorld {
  default_graph_stack : list GraphId;
  global_default_graph : GraphId;
  graphs : gmap GraphId Graph;
  sessions : gmap SessionId Session;
  files : FileSystem;
}.

Module tf.

Definition graph_of (w : World) (g : GraphId) : Graph :=
  default empty_graph (graphs w !! g).

(** [tf.get_default_graph()]: the innermost graph made default by an
    enclosing [as_default] block, else the process-wide default. *)
Definition get_default_graph (w : World) : GraphId :=
  match default_graph_stack w with
  | g :: _ => g
  | [] => global_default_graph w
  end.

(** Entering [with g.as_default():]. *)
Definition as_default_enter (g : GraphId) (w : World) : World :=
  {| default_graph_stack := g :: default_graph_stack w;
     global_default_graph := global_default_graph w;
     graphs := graphs w; sessions := sessions w; files := files w |}.

(** Leaving [with g.as_default():].  The framework enforces nesting:
    if the stack is not empty its top must be [g], which is popped. *)
Definition as_default_exit (g : GraphId) (w : World) : Outcome World :=
  match default_graph_stack w with
  | [] => Return w
  | top :: rest =>
      if decide (top = g) then
        Return {| default_graph_stack := rest;
                  global_default_graph := global_default_graph w;
                  graphs := graphs w; sessions := sessions w;
                  files := files w |}
      else Raise (AssertionError "Nesting violated for default stack")
  end.

(** Names already taken in a graph. *)
Definition names_in_use (gr : Graph) : list string :=
  var_name <$> (global_variables gr ++ local_variables gr)%list.

Fixpoint first_unused (used : list string) (name : string) (i fuel : nat)
  : string :=
  let candidate := name +:+ "_" +:+ pretty i in
  match fuel with
  | O => candidate
  | S fuel' =>
      if bool_decide (candidate ∈ used)
      then first_unused used name (S i) fuel'
      else candidate
  end.

(** [Graph.unique_name]: the name itself when free, else the first
    free [name_1], [name_2], ... *)
Definition unique_name (gr : Graph) (name : string) : string :=
  let used := names_in_use gr in
  if bool_decide (name ∈ used)
  then first_unused used name 1 (length used)
  else name.

Definition set_graph (g : GraphId) (gr : Graph) (w : World) : World :=
  {| default_graph_stack := default_graph_stack w;
     global_default_graph := global_default_graph w;
     graphs := <[g := gr]> (graphs w);
     sessions := sessions w; files := files w |}.

(** [tf.Variable(initial_value, trainable=..., name=...)]: a new
    variable of the current default graph, added to its
    [GLOBAL_VARIABLES] collection. *)
Definition Variable_new (initial_value : Tensor) (trainable : bool)
    (name : string) (w : World) : Var * World :=
  let g := get_default_graph w in
  let gr := graph_of w g in
  let v := {| var_graph := g; var_name := unique_name gr name;
              var_initial_value := initial_value;
              var_trainable := trainable |} in
  (v, set_graph g {| global_variables := (global_variables gr ++ [v])%list;
                     local_variables := local_variables gr |} w).

(** [tf.global_variables_initializer()] and
    [tf.local_variables_initializer()]: an operation of the current
    default graph over the variables that graph holds at this point. *)
Definition global_variables_initializer (w : World) : Operation :=
  let g := get_default_graph w in
  {| op_graph := g; op_initializes := global_variables (graph_of w g) |}.

Definition local_variables_initializer (w : World) : Operation :=
  let g := get_default_graph w in
  {| op_graph := g; op_initializes := local_variables (graph_of w g) |}.

(** [tf.group(a, b)]: one operation that runs both; the inputs must
    belong to one graph. *)
Definition group (a b : Operation) : Outcome Operation :=
  if decide (op_graph a = op_graph b) then
    Return {| op_graph := op_graph a;
              op_initializes := (op_initializes a ++ op_initializes b)%list |}
  else Raise (ValueError "Operations must be from the same graph").

(** [tf.train.Saver()] without arguments: tracks the saveable
    variables of the current default graph as they are now, and
    refuses an empty list. *)
Definition Saver_new (w : World) : Outcome Saver :=
  let g := get_default_graph w in
  match global_variables (graph_of w g) with
  | [] => Raise (ValueError "No variables to save")
  | vs => Return {| saver_graph := g; saver_var_list := vs |}
  end.

(** [sess.run(v)] for a variable [v]. *)
Definition Session_run_variable (s : Session) (v : Var)
  : Outcome Tensor :=
  if decide (var_graph v = sess_graph s) then
    match sess_values s !! var_name v with
    | Some x => Return x
    | None =>
        Raise (FailedPreconditionError "Attempting to use uninitialized value")
    end
  else Raise (ValueError "Tensor is not an element of this graph").

(** The values a saver writes: the session's value of every tracked
    variable; fails if one of them is not initialized. *)
Fixpoint collect (s : Session) (vs : list Var)
  : Outcome (gmap string Tensor) :=
  match vs with
  | [] => Return ∅
  | v :: vs' =>
      match Session_run_variable s v with
      | Raise e => Raise e
      | Return x =>
          match collect s vs' with
          | Raise e => Raise e
          | Return m => Return (<[var_name v := x]> m)
          end
      end
  end.

(** The name of the checkpoint state file of a directory. *)
Definition checkpoint_state_file (dir : string) : string :=
  os_path.join dir "checkpoint".

(** [Saver.save(sess, save_path, global_step)] with [global_step] a
    variable.  [save_path] is the prefix of the filenames created for
    the checkpoint: the step read from the session is appended to it
    as ["%s-%d"], the tracked values are written under that name, and
    the checkpoint state file of [os.path.dirname(save_path)] is
    updated to name it as the latest one.  Returns the new file
    system and the checkpoint name. *)
Definition Saver_save (sv : Saver) (s : Session) (save_path : string)
    (global_step : Var) (fs : FileSystem)
  : Outcome (string * FileSystem) :=
  match Session_run_variable s global_step with
  | Raise e => Raise e
  | Return step =>
      let checkpoint_file := save_path +:+ "-" +:+ pretty step in
      if decide (saver_graph sv = sess_graph s) then
        match collect s (saver_var_list sv) with
        | Raise e => Raise e
        | Return values =>
            Return (checkpoint_file,
              {| checkpoint_states :=
                   <[checkpoint_state_file (os_path.dirname save_path)
                     := checkpoint_file]> (checkpoint_states fs);
                 checkpoint_files :=
                   <[checkpoint_file := values]> (checkpoint_files fs) |})
        end
      else Raise (ValueError "Tensor is not an element of this graph")
  end.

(** [tf.train.latest_checkpoint(checkpoint_dir)]: the checkpoint named
    by the state file of [checkpoint_dir], provided its files exist;
    [None] otherwise. *)
Definition latest_checkpoint (checkpoint_dir : string) (fs : FileSystem)
  : option string :=
  match checkpoint_states fs !! checkpoint_state_file checkpoint_dir with
  | Some path =>
      match checkpoint_files fs !! path with
      | Some _ => Some path
      | None => None
      end
  | None => None
  end.

(** Assigning the stored value of every tracked variable; [None] when
    a tracked variable is missing from the checkpoint. *)
Fixpoint assign_all (vs : list Var) (stored : gmap string Tensor)
    (values : gmap string Tensor) : option (gmap string Tensor) :=
  match vs with
  | [] => Some values
  | v :: vs' =>
      match stored !! var_name v with
      | Some x => assign_all vs' stored (<[var_name v := x]> values)
      | None => None
      end
  end.

(** [Saver.restore(sess, save_path)]: every tracked variable takes the
    value stored in the checkpoint.  A restore that fails is taken to
    leave the session as it was. *)
Definition Saver_restore (sv : Saver) (s : Session) (save_path : string)
    (fs : FileSystem) : Outcome Session :=
  match checkpoint_files fs !! save_path with
  | None => Raise (ValueError "The passed save_path is not a valid checkpoint")
  | Some stored =>
      if decide (saver_graph sv = sess_graph s) then
        match assign_all (saver_var_list sv) stored (sess_values s) with
        | Some values =>
            Return {| sess_graph := sess_graph s; sess_values := values |}
        | None => Raise (NotFoundError "Key not found in checkpoint")
        end
      else Raise (ValueError "Tensor is not an element of this graph")
  end.

End tf.

(** ** The instance, its class and the interpreter state *)

(** [BaseModel.ModeKeys]: four class attributes holding strings. *)
Inductive ModeKeys : Type := TRAIN | EVAL | PREDICT | RETRAIN.

Definition ModeKeys_value (m : ModeKeys) : string :=
  match m with
  | TRAIN => "train"
  | EVAL => "eval"
  | PREDICT => "infer"
  | RETRAIN => "retrain"
  end.

#[global] Instance ModeKeys_eq_dec : EqDecision ModeKeys.
Proof. solve_decision. Defined.

(** Modelled from the spec: the class [Config] of [base/base_config.py]
    is imported by the source but is not among the source files.  It is
    an opaque settings object of which [BaseModel] reads one field, the
    checkpoint directory, which is a path or Python's [None]. *)
Module Config.
Record t : Type := mk {
  ckpt_dir : option string;
}.
End Config.

(** The instance [self].  Attributes of a Python object exist from
    their first assignment on: [None] here is an attribute that was
    never assigned, and reading it raises [AttributeError]. *)
Record BaseModel : Type := mkBaseModel {
  config : option Config.t;
  graph : option GraphId;
  global_step : option Var;
  saver : option Saver;
  init_op : option Operation;
  mode : option ModeKeys;
}.

Definition new_object : BaseModel :=
  {| config := None; graph := None; global_step := None; saver := None;
     init_op := None; mode := None |}.

Definition set_config (c : Config.t) (o : BaseModel) : BaseModel :=
  {| config := Some c; graph := graph o; global_step := global_step o;
     saver := saver o; init_op := init_op o; mode := mode o |}.
Definition set_graph (g : GraphId) (o : BaseModel) : BaseModel :=
  {| config := config o; graph := Some g; global_step := global_step o;
     saver := saver o; init_op := init_op o; mode := mode o |}.
Definition set_global_step (v : Var) (o : BaseModel) : BaseModel :=
  {| config := config o; graph := graph o; global_step := Some v;
     saver := saver o; init_op := init_op o; mode := mode o |}.
Definition set_saver (s : Saver) (o : BaseModel) : BaseModel :=
  {| config := config o; graph := graph o; global_step := global_step o;
     saver := Some s; init_op := init_op o; mode := mode o |}.
Definition set_init_op (op : Operation) (o : BaseModel) : BaseModel :=
  {| config := config o; graph := graph o; global_step := global_step o;
     saver := saver o; init_op := Some op; mode := mode o |}.
Definition set_mode (m : ModeKeys) (o : BaseModel) : BaseModel :=
  {| config := config o; graph := graph o; global_step := global_step o;
     saver := saver o; init_op := init_op o; mode := Some m |}.

(** Calls into the framework, as they appear in the source. *)
Inductive Call : Type :=
| tf_get_default_graph
| tf_Variable (name : string)
| tf_train_Saver
| tf_global_variables_initializer
| tf_local_variables_initializer
| tf_group
| tf_train_latest_checkpoint (checkpoint_dir : string)
| saver_restore (sess : SessionId) (save_path : string)
| saver_save (sess : SessionId) (save_path : string) (global_step : Var).

(** What an execution does, in the order in which it does it. *)
Inductive Event : Type :=
| EAssign (attr : string)          (* [self.attr = ...] *)
| EMethod (name : string)          (* [self.name(...)] is entered *)
| EEnter (g : GraphId)             (* [with g.as_default():] is entered *)
| EExit (g : GraphId)              (* ... and left *)
| ECall (c : Call)                 (* a call into the framework *)
| EAssert (holds : bool)           (* an [assert] is evaluated *)
| ELog (msg : string).             (* [logger.info(msg)] *)

Record State : Type := mkState {
  self : BaseModel;
  world : World;
  trace : list Event;
}.

(** Statements: they run on a state, change it, and return or raise. *)
Definition M (A : Type) : Type := State → Outcome A * State.

#[global] Instance M_ret : MRet M := λ A a st, (Return a, st).
#[global] Instance M_bind : MBind M := λ A B f m st,
  match m st with
  | (Return a, st') => f a st'
  | (Raise e, st') => (Raise e, st')
  end.

Definition raise {A : Type} (e : Exception) : M A := λ st, (Raise e, st).

Definition emit (e : Event) : M unit := λ st,
  (Return (), {| self := self st; world := world st;
                 trace := (trace st ++ [e])%list |}).

Definition get_world : M World := λ st, (Return (world st), st).

Definition put_world (w : World) : M unit := λ st,
  (Return (), {| self := self st; world := w; trace := trace st |}).

(** [self.attr] read, and [self.attr = value]. *)
Definition getattr {A : Type} (attr : string) (proj : BaseModel → option A)
  : M A := λ st,
  match proj (self st) with
  | Some a => (Return a, st)
  | None => (Raise (AttributeError attr), st)
  end.

Definition assign (attr : string) (update : BaseModel → BaseModel)
  : M unit := λ st,
  (Return (), {| self := update (self st); world := world st;
                 trace := (trace st ++ [EAssign attr])%list |}).

(** [assert value is not None, msg]. *)
Definition assert_is_not_None {A : Type} (value : option A) (msg : string)
  : M A :=
  match value with
  | Some a => emit (EAssert true) ;; mret a
  | None => emit (EAssert false) ;; raise (AssertionError msg)
  end.

Definition logger_info (msg : string) : M unit := emit (ELog msg).

(** Truth value of what [tf.train.latest_checkpoint] returns: [None]
    and the empty string are false. *)
Definition truthy (s : option string) : bool :=
  match s with
  | Some p => negb (bool_decide (p = ""))
  | None => false
  end.

(** [with g.as_default(): body].  The scope is left when the body
    returns and when it raises; an error on leaving replaces the
    body's. *)
Definition with_as_default {A : Type} (g : GraphId) (body : M A) : M A :=
  λ st,
  let '(r, st') :=
    body {| self := self st; world := tf.as_default_enter g (world st);
            trace := (trace st ++ [EEnter g])%list |} in
  match tf.as_default_exit g (world st') with
  | Return w' =>
      (r, {| self := self st'; world := w';
             trace := (trace st' ++ [EExit g])%list |})
  | Raise e =>
      (Raise e, {| self := self st'; world := world st';
                   trace := (trace st' ++ [EExit g])%list |})
  end.

(** A method body supplied by a subclass: it may read and change the
    instance and the framework's state, and return or raise. *)
Definition Hook : Type := BaseModel → World → Outcome unit * (BaseModel * World).

Definition run_hook (h : Hook) : M unit := λ st,
  let '(r, (o, w)) := h (self st) (world st) in
  (r, {| self := o; world := w; trace := trace st |}).

(** A dataset is only handed on to the subclass. *)
Definition Dataset : Type := list (list Tensor * Tensor).

(** The methods a subclass is meant to override; [None] where it does
    not, in which case the call reaches the method of [BaseModel]. *)
Record Class : Type := mkClass {
  override_init_graph : option Hook;
  override_train : option (SessionId → Dataset → Hook);
  override_evaluate : option (SessionId → Dataset → Hook);
  override_predict : option (SessionId → Dataset → Hook);
}.

(** [BaseModel] itself: nothing is overridden. *)
Definition BaseModel_class : Class :=
  {| override_init_graph := None; override_train := None;
     override_evaluate := None; override_predict := None |}.

(** ** Framework calls as statements

    Each call is recorded in the trace and acts on the framework state
    of the interpreter. *)
Module api.

Definition get_default_graph : M GraphId :=
  emit (ECall tf_get_default_graph) ;;
  w ← get_world ;
  mret (tf.get_default_graph w).

Definition new_Variable (initial_value : Tensor) (trainable : bool)
    (name : string) : M Var :=
  emit (ECall (tf_Variable name)) ;;
  w ← get_world ;
  let '(v, w') := tf.Variable_new initial_value trainable name w in
  put_world w' ;;
  mret v.

Definition new_Saver : M Saver :=
  emit (ECall tf_train_Saver) ;;
  w ← get_world ;
  match tf.Saver_new w with
  | Return sv => mret sv
  | Raise e => raise e
  end.

Definition global_variables_initializer : M Operation :=
  emit (ECall tf_global_variables_initializer) ;;
  w ← get_world ;
  mret (tf.global_variables_initializer w).

Definition local_variables_initializer : M Operation :=
  emit (ECall tf_local_variables_initializer) ;;
  w ← get_world ;
  mret (tf.local_variables_initializer w).

Definition group (a b : Operation) : M Operation :=
  emit (ECall tf_group) ;;
  match tf.group a b with
  | Return op => mret op
  | Raise e => raise e
  end.

Definition latest_checkpoint (checkpoint_dir : string) : M (option string) :=
  emit (ECall (tf_train_latest_checkpoint checkpoint_dir)) ;;
  w ← get_world ;
  mret (tf.latest_checkpoint checkpoint_dir (files w)).

(** A session handle that is not in the store is a closed session. *)
Definition session (sess : SessionId) : M Session :=
  w ← get_world ;
  match sessions w !! sess with
  | Some s => mret s
  | None => raise (RuntimeError "Attempted to use a closed Session.")
  end.

Definition Saver_restore (sv : Saver) (sess : SessionId)
    (save_path : string) : M unit :=
  emit (ECall (saver_restore sess save_path)) ;;
  s ← session sess ;
  w ← get_world ;
  match tf.Saver_restore sv s save_path (files w) with
  | Return s' =>
      put_world {| default_graph_stack := default_graph_stack w;
                   global_default_graph := global_default_graph w;
                   graphs := graphs w;
                   sessions := <[sess := s']> (sessions w);
                   files := files w |}
  | Raise e => raise e
  end.

Definition Saver_save (sv : Saver) (sess : SessionId) (save_path : string)
    (global_step : Var) : M string :=
  emit (ECall (saver_save sess save_path global_step)) ;;
  s ← session sess ;
  w ← get_world ;
  match tf.Saver_save sv s save_path global_step (files w) with
  | Return (checkpoint_file, fs') =>
      put_world {| default_graph_stack := default_graph_stack w;
                   global_default_graph := global_default_graph w;
                   graphs := graphs w; sessions := sessions w;
                   files := fs' |} ;;
      mret checkpoint_file
  | Raise e => raise e
  end.

End api.

(** ** The class [BaseModel]

    Python is taken to run with assertions enabled, and methods are
    called with the arguments the source names: no extra positional or
    keyword arguments are passed on to the framework. *)

(** [_init_graph], [train], [evaluate], [predict] of [BaseModel]. *)
Definition _init_graph : M unit :=
  emit (EMethod "_init_graph") ;;
  raise NotImplementedError.

Definition train (sess : SessionId) (dataset : Dataset) : M unit :=
  emit (EMethod "train") ;;
  raise NotImplementedError.

Definition evaluate (sess : SessionId) (dataset : Dataset) : M unit :=
  emit (EMethod "evaluate") ;;
  raise NotImplementedError.

Definition predict (sess : SessionId) (dataset : Dataset) : M unit :=
  emit (EMethod "predict") ;;
  raise NotImplementedError.

(** [self._init_graph()] and the like on an instance of class [cls]:
    the subclass's method when it overrides, else [BaseModel]'s. *)
Definition call_init_graph (cls : Class) : M unit :=
  match override_init_graph cls with
  | Some h => emit (EMethod "_init_graph") ;; run_hook h
  | None => _init_graph
  end.

Definition call_train (cls : Class) (sess : SessionId) (dataset : Dataset)
  : M unit :=
  match override_train cls with
  | Some h => emit (EMethod "train") ;; run_hook (h sess dataset)
  | None => train sess dataset
  end.

Definition call_evaluate (cls : Class) (sess : SessionId) (dataset : Dataset)
  : M unit :=
  match override_evaluate cls with
  | Some h => emit (EMethod "evaluate") ;; run_hook (h sess dataset)
  | None => evaluate sess dataset
  end.

Definition call_predict (cls : Class) (sess : SessionId) (dataset : Dataset)
  : M unit :=
  match override_predict cls with
  | Some h => emit (EMethod "predict") ;; run_hook (h sess dataset)
  | None => predict sess dataset
  end.

(** [_init_global_step(self, name='global_step')]. *)
Definition _init_global_step (name : string) : M unit :=
  emit (EMethod "_init_global_step") ;;
  v ← api.new_Variable 0%Z false name ;
  assign "global_step" (set_global_step v).

(** [_init_saver(self)]. *)
Definition _init_saver : M unit :=
  emit (EMethod "_init_saver") ;;
  sv ← api.new_Saver ;
  assign "saver" (set_saver sv).

(** [build_model(self)]. *)
Definition build_model (cls : Class) : M unit :=
  emit (EMethod "build_model") ;;
  g ← getattr "graph" graph ;
  with_as_default g (
    _init_global_step "global_step" ;;
    call_init_graph cls ;;
    _init_saver).

(** [__init__(self, config, graph=None)]. *)
Definition __init__ (cls : Class) (config : Config.t) (graph : option GraphId)
  : M unit :=
  assign "config" (set_config config) ;;
  match graph with
  | None => g ← api.get_default_graph ; assign "graph" (set_graph g)
  | Some g => assign "graph" (set_graph g)
  end ;;
  build_model cls ;;
  a ← api.global_variables_initializer ;
  b ← api.local_variables_initializer ;
  op ← api.group a b ;
  assign "init_op" (set_init_op op) ;;
  assign "mode" (set_mode TRAIN).

(** [load(self, sess, ckpt_dir=None)]. *)
Definition load (sess : SessionId) (ckpt_dir : option string) : M unit :=
  emit (EMethod "load") ;;
  ckpt_dir ←
    match ckpt_dir with
    | None =>
        cfg ← getattr "config" config ;
        assert_is_not_None (Config.ckpt_dir cfg) "`ckpt_dir` is None!"
    | Some d => mret d
    end ;
  latest_ckpt ← api.latest_checkpoint ckpt_dir ;
  if truthy latest_ckpt then
    let latest_ckpt := default "" latest_ckpt in
    logger_info ("Loading the latest model from checkpoint: " +:+ latest_ckpt
                 +:+ " ..." +:+ nl) ;;
    sv ← getattr "saver" saver ;
    api.Saver_restore sv sess latest_ckpt ;;
    logger_info "model loaded" ;;
    assign "mode" (set_mode RETRAIN)
  else
    logger_info ("No model checkpoint" +:+ nl).

(** [save(self, sess, ckpt_dir=None)]. *)
Definition save (sess : SessionId) (ckpt_dir : option string) : M unit :=
  emit (EMethod "save") ;;
  ckpt_dir ←
    match ckpt_dir with
    | None =>
        cfg ← getattr "config" config ;
        assert_is_not_None (Config.ckpt_dir cfg) "`ckpt_dir` is None!"
    | Some d => mret d
    end ;
  logger_info "Saving model..." ;;
  sv ← getattr "saver" saver ;
  gs ← getattr "global_step" global_step ;
  api.Saver_save sv sess ckpt_dir gs ;;
  logger_info "Model is saved.".

(** Constructing an instance of [cls]: [__init__] runs on a fresh
    object, with an empty trace. *)
Definition construct (cls : Class) (config : Config.t) (graph : option GraphId)
    (w : World) : Outcome unit * State :=
  __init__ cls config graph
    {| self := new_object; world := w; trace := [] |}.

(** ** Vocabulary of the statements *)

(** The graph an instance ends up with: the one supplied, else the
    ambient default graph at the time of construction. *)
Definition the_graph (graph : option GraphId) (w : World) : GraphId :=
  match graph with
  | Some g => g
  | None => tf.get_default_graph w
  end.

(** The instance and the framework state in which [_init_graph] is
    entered during construction: configuration and graph recorded, the
    graph made default, the global step created in it. *)
Definition hook_entry (cfg : Config.t) (graph : option GraphId) (w : World)
  : BaseModel * World :=
  let g := the_graph graph w in
  let vw := tf.Variable_new 0%Z false "global_step" (tf.as_default_enter g w) in
  (set_global_step vw.1 (set_graph g (set_config cfg new_object)), vw.2).

(** What is asked of a subclass's [_init_graph]: it leaves the stack of
    default graphs as it found it and removes no variable from a
    graph. *)
Definition respects_scope (w w' : World) : Prop :=
  default_graph_stack w' = default_graph_stack w ∧
  global_default_graph w' = global_default_graph w ∧
  ∀ g v, v ∈ global_variables (tf.graph_of w g) →
         v ∈ global_variables (tf.graph_of w' g).

(** The steps of a construction that runs to its end, in order. *)
Definition construction_trace (graph : option GraphId) (g : GraphId)
  : list Event :=
  ([EAssign "config"] ++
   match graph with
   | None => [ECall tf_get_default_graph]
   | Some _ => []
   end ++
   [EAssign "graph";
    EMethod "build_model"; EEnter g;
    EMethod "_init_global_step"; ECall (tf_Variable "global_step");
    EAssign "global_step";
    EMethod "_init_graph";
    EMethod "_init_saver"; ECall tf_train_Saver; EAssign "saver";
    EExit g;
    ECall tf_global_variables_initializer;
    ECall tf_local_variables_initializer; ECall tf_group;
    EAssign "init_op";
    EAssign "mode"])%list.

(** The state a construction ends in, given the instance [o'] and the
    framework state [w'] the subclass's [_init_graph] returned. *)
Definition constructed (graph : option GraphId) (w : World)
    (o' : BaseModel) (w' : World) : State :=
  let g := the_graph graph w in
  let g0 := tf.get_default_graph w in
  {| self :=
       set_mode TRAIN
         (set_init_op
            {| op_graph := g0;
               op_initializes :=
                 (global_variables (tf.graph_of w' g0) ++
                  local_variables (tf.graph_of w' g0))%list |}
            (set_saver
               {| saver_graph := g;
                  saver_var_list := global_variables (tf.graph_of w' g) |}
               o'));
     world := {| default_graph_stack := default_graph_stack w;
                 global_default_graph := global_default_graph w';
                 graphs := graphs w'; sessions := sessions w';
                 files := files w' |};
     trace := construction_trace graph g |}.

(** The checkpoint directory [load] and [save] work with: the argument
    when it is given, else the configuration's. *)
Definition resolves (ckpt_dir : option string) (o : BaseModel) (dir : string)
  : Prop :=
  match ckpt_dir with
  | Some d => d = dir
  | None => ∃ cfg, config o = Some cfg ∧ Config.ckpt_dir cfg = Some dir
  end.

(** What resolving the directory leaves in the trace when it succeeds. *)
Definition resolution_events (ckpt_dir : option string) : list Event :=
  match ckpt_dir with
  | Some _ => []
  | None => [EAssert true]
  end.

(** The session store with one session replaced. *)
Definition with_session (sess : SessionId) (s : Session) (w : World) : World :=
  {| default_graph_stack := default_graph_stack w;
     global_default_graph := global_default_graph w;
     graphs := graphs w;
     sessions := <[sess := s]> (sessions w);
     files := files w |}.

Definition with_files (fs : FileSystem) (w : World) : World :=
  {| default_graph_stack := default_graph_stack w;
     global_default_graph := global_default_graph w;
     graphs := graphs w; sessions := sessions w;
     files := fs |}.

(** The instance with another configuration attribute. *)
Definition with_config (c : option Config.t) (st : State) : State :=
  {| self := {| config := c; graph := graph (self st);
                global_step := global_step (self st);
                saver := saver (self st); init_op := init_op (self st);
                mode := mode (self st) |};
     world := world st; trace := trace st |}.

(** The methods of [BaseModel] a caller can invoke on an instance. *)
Inductive MethodCall : Type :=
| m_load (sess : SessionId) (ckpt_dir : option string)
| m_save (sess : SessionId) (ckpt_dir : option string)
| m_train (sess : SessionId) (dataset : Dataset)
| m_evaluate (sess : SessionId) (dataset : Dataset)
| m_predict (sess : SessionId) (dataset : Dataset)
| m_init_graph
| m_init_global_step (name : string)
| m_init_saver.

Definition run_method (c : MethodCall) : M unit :=
  match c with
  | m_load sess ckpt_dir => load sess ckpt_dir
  | m_save sess ckpt_dir => save sess ckpt_dir
  | m_train sess dataset => train sess dataset
  | m_evaluate sess dataset => evaluate sess dataset
  | m_predict sess dataset => predict sess dataset
  | m_init_graph => _init_graph
  | m_init_global_step name => _init_global_step name
  | m_init_saver => _init_saver
  end.

(** The state a call leaves behind, whether it returns or raises (the
    caller may catch the exception and go on). *)
Definition after (c : MethodCall) (st : State) : State := (run_method c st).2.

Definition after_all (cs : list MethodCall) (st : State) : State :=
  foldl (λ st c, after c st) st cs.

(** ** A small concrete model *)
Module Example.

(** A subclass whose graph has one trainable variable. *)
Definition init_graph : Hook := λ o w,
  let '(_, w') := tf.Variable_new 3%Z true "weights" w in
  (Return (), (o, w')).

Definition cls : Class :=
  {| override_init_graph := Some init_graph; override_train := None;
     override_evaluate := None; override_predict := None |}.

(** Session 1 has trained for five steps; session 2 is freshly
    initialized.  Both run the process-wide default graph 0; graph 7
    is another graph.  No checkpoint exists yet. *)
Definition world0 : World :=
  {| default_graph_stack := [];
     global_default_graph := 0;
     graphs := ∅;
     sessions :=
       <[1 := {| sess_graph := 0;
                 sess_values := <["global_step" := 5%Z]>
                                  (<["weights" := 42%Z]> ∅) |}]>
       (<[2 := {| sess_graph := 0;
                  sess_values := <["global_step" := 0%Z]>
                                   (<["weights" := 3%Z]> ∅) |}]> ∅);
     files := {| checkpoint_states := ∅; checkpoint_files := ∅ |} |}.

Definition with_dir (dir : string) : Config.t :=
  {| Config.ckpt_dir := Some dir |}.

Definition without_dir : Config.t := {| Config.ckpt_dir := None |}.

(** The model built in the default graph, configured with [cfg]. *)
Definition model (cfg : Config.t) : State :=
  (construct cls cfg None world0).2.

(** The same model after a [save] from session 1 into the configured
    directory. *)
Definition saved (cfg : Config.t) : State :=
  (save 1 None (model cfg)).2.

(** What [init_graph] returns when the construction calls it. *)
Definition returned (cfg : Config.t) (supplied : option GraphId)
  : BaseModel * World :=
  ((hook_entry cfg supplied world0).1,
   (tf.Variable_new 3%Z true "weights" (hook_entry cfg supplied world0).2).2).

(** A subclass whose [_init_graph] fails. *)
Definition failing_init_graph : Hook := λ o w,
  (Raise (ValueError "Shapes are incompatible"), (o, w)).

Definition failing_cls : Class :=
  {| override_init_graph := Some failing_init_graph; override_train := None;
     override_evaluate := None; override_predict := None |}.

(** The saved model, with one more session, 3, that runs graph 7 and
    not the model's graph. *)
Definition with_foreign_session (cfg : Config.t) : State :=
  {| self := self (saved cfg);
     world := with_session 3 {| sess_graph := 7; sess_values := ∅ |}
                (world (saved cfg));
     trace := trace (saved cfg) |}.

(** The saved model after a [load] into session 2. *)
Definition loaded (cfg : Config.t) : State :=
  (load 2 None (saved cfg)).2.

End Example.

(** Events that touch checkpoints. *)
Definition is_checkpoint_io (e : Event) : bool :=
  match e with
  | ECall (tf_train_latest_checkpoint _)
  | ECall (saver_restore _ _)
  | ECall (saver_save _ _ _) => true
  | _ => false
  end.

(** A state after more events, nothing else changed. *)
Definition extend (st : State) (events : list Event) : State :=
  {| self := self st; world := world st;
     trace := (trace st ++ events)%list |}.

(** * Properties *)

(** Unfolding a run of the interpreter down to framework functions. *)
Ltac run :=
  unfold construct, __init__, build_model, _init_global_step, _init_saver,
    load, save, _init_graph, train, evaluate, predict,
    call_init_graph, call_train, call_evaluate, call_predict, run_hook,
    with_as_default,
    api.get_default_graph, api.new_Variable, api.new_Saver,
    api.global_variables_initializer, api.local_variables_initializer,
    api.group,
    api.latest_checkpoint, api.Saver_restore, api.Saver_save, api.session,
    logger_info, assert_is_not_None, getattr, assign, emit, raise,
    get_world, put_world, extend, mbind, M_bind, mret, M_ret; simpl.

Ltac tidy := rewrite <- ?app_assoc; simpl.

(** No assertion among the events listed. *)
Ltac no_assert :=
  let b := fresh "b" in
  let Hb := fresh "Hb" in
  intros b Hb;
  repeat (apply elem_of_cons in Hb as [Hb|Hb]; [discriminate|]);
  by apply not_elem_of_nil in Hb.

(** ** The monad *)


(** ** The framework *)

Lemma graph_of_set_graph g gr w : tf.graph_of (tf.set_graph g gr w) g = gr.
Proof. unfold tf.graph_of, tf.set_graph. simpl. by rewrite lookup_insert_eq. Qed.

(** A restore gives each tracked variable its stored value and leaves
    the other values of the session alone. *)
Lemma assign_all_lookup vs stored values values' :
  tf.assign_all vs stored values = Some values' →
  ∀ n, values' !! n =
       if bool_decide (n ∈ var_name <$> vs) then stored !! n else values !! n.
Proof.
  revert values. induction vs as [|v vs IH]; simpl; intros values H n.
  - injection H as <-. reflexivity.
  - destruct (stored !! var_name v) as [x|] eqn:Ex; [|discriminate].
    rewrite (IH _ H n). destruct (decide (n = var_name v)) as [->|Hne].
    + rewrite (bool_decide_eq_true_2 (var_name v ∈ var_name v :: _))
        by apply list_elem_of_here.
      rewrite lookup_insert_eq, Ex. by case_bool_decide.
    + rewrite lookup_insert_ne by done.
      case_bool_decide as H1; case_bool_decide as H2; try reflexivity.
      * exfalso. apply H2. by apply list_elem_of_further.
      * exfalso. apply elem_of_cons in H2 as [?|?]; done.
Qed.

Lemma Saver_restore_values sv s path fs s' :
  tf.Saver_restore sv s path fs = Return s' →
  ∃ stored, checkpoint_files fs !! path = Some stored ∧
    sess_graph s' = sess_graph s ∧
    ∀ v, v ∈ saver_var_list sv →
         sess_values s' !! var_name v = stored !! var_name v.
Proof.
  unfold tf.Saver_restore. intros H.
  destruct (checkpoint_files fs !! path) as [stored|]; [|discriminate].
  case_decide; [|discriminate].
  destruct (tf.assign_all _ _ _) as [values|] eqn:Ea; [|discriminate].
  injection H as <-. exists stored. repeat split. simpl. intros v Hv.
  rewrite (assign_all_lookup _ _ _ _ Ea).
  rewrite bool_decide_eq_true_2; [reflexivity|].
  apply list_elem_of_fmap. by exists v.
Qed.

(** What a saver collects is the session's value of each tracked
    variable. *)
Lemma collect_lookup s vs m :
  tf.collect s vs = Return m →
  ∀ v, v ∈ vs → m !! var_name v = sess_values s !! var_name v ∧
                is_Some (m !! var_name v).
Proof.
  revert m. induction vs as [|u vs IH]; simpl; intros m H v Hv.
  - by apply not_elem_of_nil in Hv.
  - unfold tf.Session_run_variable in H. case_decide; [|discriminate].
    destruct (sess_values s !! var_name u) as [x|] eqn:Ex; [|discriminate].
    destruct (tf.collect s vs) as [m'|] eqn:Ec; [|discriminate].
    injection H as <-.
    destruct (decide (var_name v = var_name u)) as [E|Hne].
    + rewrite E, lookup_insert_eq, Ex. split; [reflexivity | by eexists].
    + rewrite lookup_insert_ne by done.
      apply elem_of_cons in Hv as [->|Hv]; [done|].
      by apply IH.
Qed.

Lemma assign_all_is_Some vs stored values :
  (∀ v, v ∈ vs → is_Some (stored !! var_name v)) →
  is_Some (tf.assign_all vs stored values).
Proof.
  revert values. induction vs as [|u vs IH]; simpl; intros values H.
  - by eexists.
  - destruct (H u) as [x ->]; [apply list_elem_of_here|].
    apply IH. intros v Hv. apply H. by apply list_elem_of_further.
Qed.

(** ** Checkpoint load *)

(** A directory that resolves is what [load] hands to the framework;
    with no usable checkpoint there, nothing but the trace changes. *)
Lemma load_no_checkpoint sess ckpt_dir st dir :
  resolves ckpt_dir (self st) dir →
  truthy (tf.latest_checkpoint dir (files (world st))) = false →
  load sess ckpt_dir st =
    (Return (),
     extend st ([EMethod "load"] ++ resolution_events ckpt_dir ++
                [ECall (tf_train_latest_checkpoint dir);
                 ELog ("No model checkpoint" +:+ nl)])).
Proof.
  intros Hr Ht. destruct ckpt_dir as [d|]; simpl in Hr.
  - subst d. run. rewrite Ht. simpl. tidy. reflexivity.
  - destruct Hr as (cfg & Hc & Hd). run. rewrite Hc. simpl. rewrite Hd. simpl.
    rewrite Ht. simpl. tidy. reflexivity.
Qed.

Lemma load_checkpoint sess ckpt_dir st dir path sv s s' :
  resolves ckpt_dir (self st) dir →
  tf.latest_checkpoint dir (files (world st)) = Some path →
  path ≠ "" →
  saver (self st) = Some sv →
  sessions (world st) !! sess = Some s →
  tf.Saver_restore sv s path (files (world st)) = Return s' →
  load sess ckpt_dir st =
    (Return (),
     {| self := set_mode RETRAIN (self st);
        world := with_session sess s' (world st);
        trace := trace st ++ [EMethod "load"] ++ resolution_events ckpt_dir ++
                 [ECall (tf_train_latest_checkpoint dir);
                  ELog ("Loading the latest model from checkpoint: "
                        +:+ path +:+ " ..." +:+ nl);
                  ECall (saver_restore sess path);
                  ELog "model loaded";
                  EAssign "mode"] |}).
Proof.
  intros Hr Hl Hp Hsv Hs Hre.
  assert (Ht : truthy (Some path) = true).
  { simpl. rewrite bool_decide_eq_false_2; done. }
  destruct ckpt_dir as [d|]; simpl in Hr.
  - subst d. run. rewrite Hl, Ht. simpl. rewrite Hsv. simpl. rewrite Hs. simpl.
    rewrite Hre. simpl. tidy. reflexivity.
  - destruct Hr as (cfg & Hc & Hd). run. rewrite Hc. simpl. rewrite Hd. simpl.
    rewrite Hl, Ht. simpl. rewrite Hsv. simpl. rewrite Hs. simpl.
    rewrite Hre. simpl. tidy. reflexivity.
Qed.

(** A restore that raises surfaces from [load], with the mode and the
    session as they were. *)
Lemma load_restore_raises sess ckpt_dir st dir path sv s e :
  resolves ckpt_dir (self st) dir →
  tf.latest_checkpoint dir (files (world st)) = Some path →
  path ≠ "" →
  saver (self st) = Some sv →
  sessions (world st) !! sess = Some s →
  tf.Saver_restore sv s path (files (world st)) = Raise e →
  ∃ st', load sess ckpt_dir st = (Raise e, st') ∧
         self st' = self st ∧ world st' = world st.
Proof.
  intros Hr Hl Hp Hsv Hs Hre.
  assert (Ht : truthy (Some path) = true).
  { simpl. rewrite bool_decide_eq_false_2; done. }
  destruct ckpt_dir as [d|]; simpl in Hr.
  - subst d. run. rewrite Hl, Ht. simpl. rewrite Hsv. simpl. rewrite Hs. simpl.
    rewrite Hre. simpl. eexists. repeat split.
  - destruct Hr as (cfg & Hc & Hd). run. rewrite Hc. simpl. rewrite Hd. simpl.
    rewrite Hl, Ht. simpl. rewrite Hsv. simpl. rewrite Hs. simpl.
    rewrite Hre. simpl. eexists. repeat split.
Qed.

(** C3.  When [load] resolves a checkpoint directory and the framework
    names a latest checkpoint there, [load] has the saver restore it
    into the session: every variable the saver tracks takes the value
    stored in the checkpoint.  Once the restore has returned, [load]
    logs it and sets the mode to [RETRAIN], and returns. *)
Theorem load_restores_then_retrain sess ckpt_dir st dir path sv s s' :
  resolves ckpt_dir (self st) dir →
  tf.latest_checkpoint dir (files (world st)) = Some path →
  path ≠ "" →
  saver (self st) = Some sv →
  sessions (world st) !! sess = Some s →
  tf.Saver_restore sv s path (files (world st)) = Return s' →
  ∃ stored st',
    load sess ckpt_dir st = (Return (), st') ∧
    checkpoint_files (files (world st)) !! path = Some stored ∧
    sessions (world st') !! sess = Some s' ∧
    (∀ v, v ∈ saver_var_list sv →
          sess_values s' !! var_name v = stored !! var_name v) ∧
    mode (self st') = Some RETRAIN ∧
    trace st' =
      trace st ++ [EMethod "load"] ++ resolution_events ckpt_dir ++
      [ECall (tf_train_latest_checkpoint dir);
       ELog ("Loading the latest model from checkpoint: "
             +:+ path +:+ " ..." +:+ nl);
       ECall (saver_restore sess path);
       ELog "model loaded";
       EAssign "mode"].
Proof.
  intros Hr Hl Hp Hsv Hs Hre.
  destruct (Saver_restore_values _ _ _ _ _ Hre) as (stored & Hst & _ & Hvals).
  exists stored. eexists. split.
  { eapply load_checkpoint; eassumption. }
  simpl. repeat split; try done. apply lookup_insert_eq.
Qed.

(** C4.  [load] on a directory in which the framework finds no
    checkpoint returns normally and changes neither the instance (so
    not its mode), nor the sessions, nor the files: it only logs that
    there is no checkpoint. *)
Theorem load_without_checkpoint_changes_nothing sess ckpt_dir st dir :
  resolves ckpt_dir (self st) dir →
  tf.latest_checkpoint dir (files (world st)) = None →
  ∃ st',
    load sess ckpt_dir st = (Return (), st') ∧
    self st' = self st ∧
    mode (self st') = mode (self st) ∧
    world st' = world st ∧
    trace st' =
      trace st ++ [EMethod "load"] ++ resolution_events ckpt_dir ++
      [ECall (tf_train_latest_checkpoint dir);
       ELog ("No model checkpoint" +:+ nl)].
Proof.
  intros Hr Hl. eexists. split.
  { apply (load_no_checkpoint _ _ _ dir Hr). by rewrite Hl. }
  repeat split.
Qed.

(** ** Checkpoint directory resolution *)

Lemma load_without_directory sess st cfg :
  config (self st) = Some cfg →
  Config.ckpt_dir cfg = None →
  load sess None st =
    (Raise (AssertionError "`ckpt_dir` is None!"),
     extend st [EMethod "load"; EAssert false]).
Proof.
  intros Hc Hd. run. rewrite Hc. simpl. rewrite Hd. simpl. tidy. reflexivity.
Qed.

Lemma save_without_directory sess st cfg :
  config (self st) = Some cfg →
  Config.ckpt_dir cfg = None →
  save sess None st =
    (Raise (AssertionError "`ckpt_dir` is None!"),
     extend st [EMethod "save"; EAssert false]).
Proof.
  intros Hc Hd. run. rewrite Hc. simpl. rewrite Hd. simpl. tidy. reflexivity.
Qed.

(** C5.  With no [ckpt_dir] argument and no [ckpt_dir] in the
    configuration, [load] and [save] raise the assertion error; the
    failed assertion is the last thing they do, so no checkpoint is
    looked up, read or written, and the instance, the sessions and the
    files are as before. *)
Theorem no_directory_raises_assertion sess st cfg :
  config (self st) = Some cfg →
  Config.ckpt_dir cfg = None →
  ∃ st1 st2,
    load sess None st = (Raise (AssertionError "`ckpt_dir` is None!"), st1) ∧
    save sess None st = (Raise (AssertionError "`ckpt_dir` is None!"), st2) ∧
    self st1 = self st ∧ world st1 = world st ∧
    self st2 = self st ∧ world st2 = world st ∧
    trace st1 = trace st ++ [EMethod "load"; EAssert false] ∧
    trace st2 = trace st ++ [EMethod "save"; EAssert false] ∧
    filter is_checkpoint_io (trace st1) = filter is_checkpoint_io (trace st) ∧
    filter is_checkpoint_io (trace st2) = filter is_checkpoint_io (trace st).
Proof.
  intros Hc Hd. do 2 eexists.
  split; [by eapply load_without_directory|].
  split; [by eapply save_without_directory|].
  simpl. repeat split; rewrite filter_app; simpl; by rewrite app_nil_r.
Qed.

(** The framework's saver raises no assertion error. *)
Lemma collect_no_assertion s vs msg :
  tf.collect s vs ≠ Raise (AssertionError msg).
Proof.
  induction vs as [|u vs IH]; simpl; [discriminate|].
  unfold tf.Session_run_variable.
  case_decide; [|discriminate].
  destruct (sess_values s !! var_name u); [|discriminate].
  destruct (tf.collect s vs) as [m|e]; [discriminate|].
  intros [= ->]. by apply IH.
Qed.

Lemma Saver_save_no_assertion sv s save_path gs fs msg :
  tf.Saver_save sv s save_path gs fs ≠ Raise (AssertionError msg).
Proof.
  unfold tf.Saver_save, tf.Session_run_variable.
  case_decide; [|discriminate].
  destruct (sess_values s !! var_name gs); [|discriminate].
  case_decide; [|discriminate].
  destruct (tf.collect s (saver_var_list sv)) as [m|e] eqn:E; [discriminate|].
  intros [= ->]. by apply collect_no_assertion in E.
Qed.

Lemma Saver_restore_no_assertion sv s save_path fs msg :
  tf.Saver_restore sv s save_path fs ≠ Raise (AssertionError msg).
Proof.
  unfold tf.Saver_restore.
  destruct (checkpoint_files fs !! save_path); [|discriminate].
  case_decide; [|discriminate].
  destruct (tf.assign_all _ _ _); discriminate.
Qed.

(** C10.  When the [ckpt_dir] argument is given, [load] and [save] go
    straight on with it: no assertion is evaluated, no assertion error
    can come out, the framework is called with that very argument, and
    the outcome does not depend on the configuration, which may lack a
    checkpoint directory or be missing altogether. *)
Theorem explicit_directory_skips_assertion sess d st :
  (∃ events,
     trace (load sess (Some d) st).2 =
       trace st ++ EMethod "load" :: ECall (tf_train_latest_checkpoint d)
                   :: events ∧
     ∀ b, EAssert b ∉ events) ∧
  (∃ events,
     trace (save sess (Some d) st).2 =
       trace st ++ EMethod "save" :: ELog "Saving model..." :: events ∧
     (∀ b, EAssert b ∉ events) ∧
     ∀ sv gs, saver (self st) = Some sv → global_step (self st) = Some gs →
              ∃ events', events = ECall (saver_save sess d gs) :: events') ∧
  (∀ msg, (load sess (Some d) st).1 ≠ Raise (AssertionError msg) ∧
          (save sess (Some d) st).1 ≠ Raise (AssertionError msg)) ∧
  (∀ c, (load sess (Some d) (with_config c st)).1 = (load sess (Some d) st).1 ∧
        (save sess (Some d) (with_config c st)).1 = (save sess (Some d) st).1 ∧
        world (load sess (Some d) (with_config c st)).2
          = world (load sess (Some d) st).2 ∧
        world (save sess (Some d) (with_config c st)).2
          = world (save sess (Some d) st).2 ∧
        trace (load sess (Some d) (with_config c st)).2
          = trace (load sess (Some d) st).2 ∧
        trace (save sess (Some d) (with_config c st)).2
          = trace (save sess (Some d) st).2).
Proof.
  split; [|split; [|split]].
  - run. destruct (truthy _); simpl;
      [ destruct (saver (self st)) as [sv|]; simpl;
        [ destruct (sessions (world st) !! sess) as [s|]; simpl;
          [ destruct (tf.Saver_restore _ _ _ _) as [s'|e]; simpl | ] | ] | ];
      tidy; eexists; (split; [reflexivity | no_assert]).
  - run. destruct (saver (self st)) as [sv|]; simpl;
      [ destruct (global_step (self st)) as [gs|]; simpl;
        [ destruct (sessions (world st) !! sess) as [s|]; simpl;
          [ destruct (tf.Saver_save _ _ _ _ _) as [[f fs]|e]; simpl | ] | ] | ];
      tidy; eexists; (split; [reflexivity|]); (split; [no_assert|]);
      intros sv' gs' Hsv Hgs; try discriminate;
      injection Hsv as <-; injection Hgs as <-; eexists; reflexivity.
  - intros msg. split.
    + run. destruct (truthy _); simpl; [|discriminate].
      destruct (saver (self st)) as [sv|]; simpl; [|discriminate].
      destruct (sessions (world st) !! sess) as [s|]; simpl; [|discriminate].
      destruct (tf.Saver_restore _ _ _ _) as [s'|e] eqn:E; simpl;
        [discriminate|].
      intros [= ->]. by apply Saver_restore_no_assertion in E.
    + run. destruct (saver (self st)) as [sv|]; simpl; [|discriminate].
      destruct (global_step (self st)) as [gs|]; simpl; [|discriminate].
      destruct (sessions (world st) !! sess) as [s|]; simpl; [|discriminate].
      destruct (tf.Saver_save _ _ _ _ _) as [[f fs]|e] eqn:E; simpl;
        [discriminate|].
      intros [= ->]. by apply Saver_save_no_assertion in E.
  - intros c. run.
    destruct (truthy _); simpl;
      destruct (saver (self st)) as [sv|]; simpl;
      destruct (global_step (self st)) as [gs|]; simpl;
      destruct (sessions (world st) !! sess) as [s|]; simpl;
      try destruct (tf.Saver_restore _ _ _ _) as [s'|e]; simpl;
      try destruct (tf.Saver_save _ _ _ _ _) as [[f fs]|e']; simpl;
      repeat split.
Qed.

(** ** The hooks left to the subclass *)

(** C6.  [_init_graph], [train], [evaluate] and [predict] of
    [BaseModel] raise [NotImplementedError] whatever the instance, the
    session and the dataset, and change nothing; a call on an instance
    whose class does not override the method reaches them. *)
Theorem unimplemented_hooks_raise cls sess dataset st :
  _init_graph st = (Raise NotImplementedError,
                    extend st [EMethod "_init_graph"]) ∧
  train sess dataset st = (Raise NotImplementedError,
                           extend st [EMethod "train"]) ∧
  evaluate sess dataset st = (Raise NotImplementedError,
                              extend st [EMethod "evaluate"]) ∧
  predict sess dataset st = (Raise NotImplementedError,
                             extend st [EMethod "predict"]) ∧
  (override_init_graph cls = None →
   call_init_graph cls st = (Raise NotImplementedError,
                             extend st [EMethod "_init_graph"])) ∧
  (override_train cls = None →
   call_train cls sess dataset st = (Raise NotImplementedError,
                                     extend st [EMethod "train"])) ∧
  (override_evaluate cls = None →
   call_evaluate cls sess dataset st = (Raise NotImplementedError,
                                        extend st [EMethod "evaluate"])) ∧
  (override_predict cls = None →
   call_predict cls sess dataset st = (Raise NotImplementedError,
                                       extend st [EMethod "predict"])).
Proof.
  repeat split; try (intros H; run; rewrite H); reflexivity.
Qed.

(** ** Construction *)

Lemma global_step_in_graph cfg graph w :
  ∃ v, global_step (hook_entry cfg graph w).1 = Some v ∧
       v ∈ global_variables
             (tf.graph_of (hook_entry cfg graph w).2 (the_graph graph w)).
Proof.
  simpl. eexists. split; [reflexivity|].
  unfold tf.Variable_new. simpl. rewrite graph_of_set_graph. simpl.
  apply elem_of_app. right. apply list_elem_of_singleton. reflexivity.
Qed.

Lemma hook_entry_stack cfg graph w :
  default_graph_stack (hook_entry cfg graph w).2
  = the_graph graph w :: default_graph_stack w.
Proof. reflexivity. Qed.

Lemma hook_entry_global_default cfg graph w :
  global_default_graph (hook_entry cfg graph w).2 = global_default_graph w.
Proof. reflexivity. Qed.

Lemma Saver_new_nonempty w v :
  v ∈ global_variables (tf.graph_of w (tf.get_default_graph w)) →
  tf.Saver_new w =
    Return {| saver_graph := tf.get_default_graph w;
              saver_var_list :=
                global_variables (tf.graph_of w (tf.get_default_graph w)) |}.
Proof.
  unfold tf.Saver_new. intros Hv.
  destruct (global_variables _) as [|x l]; [|reflexivity].
  by apply not_elem_of_nil in Hv.
Qed.

(** A construction whose [_init_graph] returns and respects the graph
    scope runs to its end, through exactly the steps of
    [construction_trace], into the state [constructed]. *)
Lemma construct_returns cls h cfg graph w o' w' :
  override_init_graph cls = Some h →
  h (hook_entry cfg graph w).1 (hook_entry cfg graph w).2
    = (Return (), (o', w')) →
  respects_scope (hook_entry cfg graph w).2 w' →
  construct cls cfg graph w = (Return (), constructed graph w o' w').
Proof.
  intros Hcls Hh (Hstack & Hdef & Hvars).
  destruct (global_step_in_graph cfg graph w) as (v & _ & Hv).
  apply Hvars in Hv. clear Hvars.
  rewrite hook_entry_stack in Hstack.
  rewrite hook_entry_global_default in Hdef.
  assert (Hg : tf.get_default_graph w' = the_graph graph w).
  { unfold tf.get_default_graph. rewrite Hstack. reflexivity. }
  rewrite <- Hg in Hv. apply Saver_new_nonempty in Hv. rewrite Hg in Hv.
  unfold hook_entry in Hh. simpl in Hh.
  unfold constructed.
  destruct graph as [g|]; simpl in *;
    run; rewrite Hcls; simpl; rewrite Hh; simpl; rewrite Hv; simpl;
    unfold tf.as_default_exit; rewrite Hstack; simpl;
    rewrite decide_True by done; simpl;
    unfold tf.group; simpl; rewrite decide_True by done; simpl;
    unfold tf.get_default_graph, tf.graph_of; simpl; rewrite Hdef;
    reflexivity.
Qed.

(** Without an override of [_init_graph] the construction stops there:
    the graph scope is left, [NotImplementedError] surfaces, and the
    instance has neither saver, nor initialization operation, nor
    mode. *)
Lemma construct_BaseModel_raises cfg graph w :
  ∃ st, construct BaseModel_class cfg graph w = (Raise NotImplementedError, st) ∧
        saver (self st) = None ∧ init_op (self st) = None ∧
        mode (self st) = None ∧
        default_graph_stack (world st) = default_graph_stack w.
Proof.
  destruct graph as [g|]; run; unfold tf.as_default_exit; simpl;
    rewrite decide_True by done; simpl; eexists; repeat split.
Qed.


(** C1.  Constructing an instance, for any configuration and any
    optional graph, with an [_init_graph] that returns and respects the
    graph scope, goes through these steps in this order: the
    configuration and the graph are recorded (the ambient default graph
    when none is given); [build_model] enters the scope of that graph;
    the global step is created; [_init_graph] is called; the saver is
    built, as the last step inside the scope; the scope is left; the
    combined initialization operation is built; the mode is set to
    [TRAIN].  The saver tracks the variables of the model's graph, the
    global step among them; the initialization operation is the one
    bound to [init_op], it belongs to the default graph as it is once
    the scope is left and covers that graph's global then local
    variables; the stack of default graphs is as before the
    construction. *)
Theorem construction_order cls h cfg supplied w o' w' :
  override_init_graph cls = Some h →
  h (hook_entry cfg supplied w).1 (hook_entry cfg supplied w).2
    = (Return (), (o', w')) →
  respects_scope (hook_entry cfg supplied w).2 w' →
  ∃ st sv op,
    construct cls cfg supplied w = (Return (), st) ∧
    config (hook_entry cfg supplied w).1 = Some cfg ∧
    graph (hook_entry cfg supplied w).1 = Some (the_graph supplied w) ∧
    trace st = construction_trace supplied (the_graph supplied w) ∧
    self st = set_mode TRAIN (set_init_op op (set_saver sv o')) ∧
    saver_graph sv = the_graph supplied w ∧
    saver_var_list sv = global_variables (tf.graph_of w' (the_graph supplied w)) ∧
    (∃ v, global_step (hook_entry cfg supplied w).1 = Some v ∧
          v ∈ saver_var_list sv) ∧
    mode (self st) = Some TRAIN ∧
    saver (self st) = Some sv ∧
    init_op (self st) = Some op ∧
    op_graph op = tf.get_default_graph w ∧
    op_initializes op =
      global_variables (tf.graph_of w' (tf.get_default_graph w)) ++
      local_variables (tf.graph_of w' (tf.get_default_graph w)) ∧
    world st =
      {| default_graph_stack := default_graph_stack w;
         global_default_graph := global_default_graph w';
         graphs := graphs w'; sessions := sessions w';
         files := files w' |} ∧
    tf.get_default_graph (world st) = tf.get_default_graph w.
Proof.
  intros Hcls Hh Hscope.
  destruct (global_step_in_graph cfg supplied w) as (v & Hgs & Hv).
  apply (proj2 (proj2 Hscope)) in Hv.
  pose proof (proj1 (proj2 Hscope)) as Hdef.
  rewrite hook_entry_global_default in Hdef.
  do 3 eexists. split.
  { eapply construct_returns; eassumption. }
  split; [reflexivity|]. split; [reflexivity|]. split; [reflexivity|].
  split; [reflexivity|]. split; [reflexivity|]. split; [reflexivity|].
  split; [exists v; split; [exact Hgs | exact Hv]|].
  split; [reflexivity|]. split; [reflexivity|]. split; [reflexivity|].
  split; [reflexivity|]. split; [reflexivity|]. split; [reflexivity|].
  unfold tf.get_default_graph. simpl. by rewrite Hdef.
Qed.

(** C9.  The combined initialization operation is built after the
    scope of the model's graph has been left.  When a graph is supplied
    that is not the ambient default graph, the operation is therefore
    created in the ambient default graph, over that graph's variables,
    and not in the model's own graph. *)
Theorem init_op_in_ambient_graph cls h cfg g w o' w' :
  override_init_graph cls = Some h →
  h (hook_entry cfg (Some g) w).1 (hook_entry cfg (Some g) w).2
    = (Return (), (o', w')) →
  respects_scope (hook_entry cfg (Some g) w).2 w' →
  g ≠ tf.get_default_graph w →
  ∃ st op before after,
    construct cls cfg (Some g) w = (Return (), st) ∧
    init_op (self st) = Some op ∧
    op_graph op = tf.get_default_graph w ∧
    op_graph op ≠ g ∧
    op_initializes op =
      global_variables (tf.graph_of w' (tf.get_default_graph w)) ++
      local_variables (tf.graph_of w' (tf.get_default_graph w)) ∧
    trace st = before ++ [EExit g; ECall tf_global_variables_initializer;
                          ECall tf_local_variables_initializer; ECall tf_group;
                          EAssign "init_op"] ++ after ∧
    EEnter g ∈ before ∧ (EEnter g ∉ after) ∧
    ECall tf_train_Saver ∈ before.
Proof.
  intros Hcls Hh Hscope Hne.
  eexists _, _,
    [EAssign "config"; EAssign "graph"; EMethod "build_model"; EEnter g;
     EMethod "_init_global_step"; ECall (tf_Variable "global_step");
     EAssign "global_step"; EMethod "_init_graph"; EMethod "_init_saver";
     ECall tf_train_Saver; EAssign "saver"],
    [EAssign "mode"].
  split.
  { eapply construct_returns; eassumption. }
  simpl. repeat split; try done.
  - repeat (apply elem_of_cons; first [by left | right]).
  - intros H. apply list_elem_of_singleton in H. discriminate.
  - repeat (apply elem_of_cons; first [by left | right]).
Qed.

(** ** The mode *)

Lemma load_mode sess ckpt_dir st :
  mode (self (load sess ckpt_dir st).2) = mode (self st) ∨
  ∃ dir, resolves ckpt_dir (self st) dir ∧
         truthy (tf.latest_checkpoint dir (files (world st))) = true ∧
         mode (self (load sess ckpt_dir st).2) = Some RETRAIN.
Proof.
  destruct ckpt_dir as [d|].
  - run. destruct (truthy _) eqn:Ht; simpl; [|by left].
    destruct (saver (self st)) as [sv|]; simpl; [|by left].
    destruct (sessions (world st) !! sess) as [s|]; simpl; [|by left].
    destruct (tf.Saver_restore _ _ _ _) as [s'|e]; simpl; [|by left].
    right. exists d. by repeat split.
  - run. destruct (config (self st)) as [cfg|] eqn:Hc; simpl; [|by left].
    destruct (Config.ckpt_dir cfg) as [d|] eqn:Hd; simpl; [|by left].
    destruct (truthy _) eqn:Ht; simpl; [|by left].
    destruct (saver (self st)) as [sv|]; simpl; [|by left].
    destruct (sessions (world st) !! sess) as [s|]; simpl; [|by left].
    destruct (tf.Saver_restore _ _ _ _) as [s'|e]; simpl; [|by left].
    right. exists d. split; [by exists cfg|]. by split.
Qed.

Lemma save_mode sess ckpt_dir st :
  mode (self (save sess ckpt_dir st).2) = mode (self st).
Proof.
  destruct ckpt_dir as [d|]; run;
    try (destruct (config (self st)) as [cfg|]; simpl; [|reflexivity];
         destruct (Config.ckpt_dir cfg) as [d|]; simpl; [|reflexivity]);
    (destruct (saver (self st)) as [sv|]; simpl; [|reflexivity]);
    (destruct (global_step (self st)) as [gs|]; simpl; [|reflexivity]);
    (destruct (sessions (world st) !! sess) as [s|]; simpl; [|reflexivity]);
    destruct (tf.Saver_save _ _ _ _ _) as [[f fs]|e]; reflexivity.
Qed.


(** The only method of [BaseModel] that can change the mode of an
    existing instance is a [load] that finds a checkpoint, and it sets
    [RETRAIN]. *)
Lemma mode_after c st :
  mode (self (after c st)) = mode (self st) ∨
  ∃ sess ckpt_dir dir,
    c = m_load sess ckpt_dir ∧
    resolves ckpt_dir (self st) dir ∧
    truthy (tf.latest_checkpoint dir (files (world st))) = true ∧
    mode (self (after c st)) = Some RETRAIN.
Proof.
  unfold after. destruct c; simpl.
  - destruct (load_mode sess ckpt_dir st) as [H|(dir & H)]; [by left|].
    right. by exists sess, ckpt_dir, dir.
  - left. apply save_mode.
  - by left.
  - by left.
  - by left.
  - by left.
  - left. run. reflexivity.
  - left. run. destruct (tf.Saver_new _); reflexivity.
Qed.



(** ** Checkpoint save *)

(** What a [save] that goes through does: the values the session holds
    for the tracked variables are stored under the name made of the
    resolved path, a dash and the global step read from the session,
    and that name is recorded as the latest checkpoint in the state
    file of the directory part of the resolved path. *)
Lemma save_writes sess ckpt_dir st dir sv gs s step values :
  resolves ckpt_dir (self st) dir →
  saver (self st) = Some sv →
  global_step (self st) = Some gs →
  sessions (world st) !! sess = Some s →
  tf.Session_run_variable s gs = Return step →
  saver_graph sv = sess_graph s →
  tf.collect s (saver_var_list sv) = Return values →
  save sess ckpt_dir st =
    (Return (),
     {| self := self st;
        world :=
          with_files
            {| checkpoint_states :=
                 <[tf.checkpoint_state_file (os_path.dirname dir)
                   := dir +:+ "-" +:+ pretty step]>
                   (checkpoint_states (files (world st)));
               checkpoint_files :=
                 <[dir +:+ "-" +:+ pretty step := values]>
                   (checkpoint_files (files (world st))) |}
            (world st);
        trace := trace st ++ [EMethod "save"] ++ resolution_events ckpt_dir ++
                 [ELog "Saving model...";
                  ECall (saver_save sess dir gs);
                  ELog "Model is saved."] |}).
Proof.
  intros Hr Hsv Hgs Hs Hstep Hg Hcol.
  assert (Hsave : tf.Saver_save sv s dir gs (files (world st)) =
    Return (dir +:+ "-" +:+ pretty step,
            {| checkpoint_states :=
                 <[tf.checkpoint_state_file (os_path.dirname dir)
                   := dir +:+ "-" +:+ pretty step]>
                   (checkpoint_states (files (world st)));
               checkpoint_files :=
                 <[dir +:+ "-" +:+ pretty step := values]>
                   (checkpoint_files (files (world st))) |})).
  { unfold tf.Saver_save. rewrite Hstep, Hcol.
    rewrite decide_True by done. reflexivity. }
  destruct ckpt_dir as [d|]; simpl in Hr.
  - subst d. run. rewrite Hsv. simpl. rewrite Hgs. simpl. rewrite Hs. simpl.
    rewrite Hsave. simpl. tidy. reflexivity.
  - destruct Hr as (cfg & Hc & Hd). run. rewrite Hc. simpl. rewrite Hd. simpl.
    rewrite Hsv. simpl. rewrite Hgs. simpl. rewrite Hs. simpl.
    rewrite Hsave. simpl. tidy. reflexivity.
Qed.

Lemma checkpoint_name_not_empty (dir : string) (step : Tensor) :
  dir +:+ "-" +:+ pretty step ≠ "".
Proof. destruct dir; discriminate. Qed.

(** The round trip goes through when the state file [save] writes is
    the one [load] reads, that is, when the directory part of the path
    names the same directory as the path itself (as it does for a path
    that ends with a separator): a [load] that follows the [save], into
    any session of the saver's graph, gives every tracked variable the
    value that was saved. *)
Lemma save_then_load_when_directories_agree
    sess1 sess2 ckpt_dir st dir sv gs s1 s2 step values :
  resolves ckpt_dir (self st) dir →
  saver (self st) = Some sv →
  global_step (self st) = Some gs →
  sessions (world st) !! sess1 = Some s1 →
  tf.Session_run_variable s1 gs = Return step →
  saver_graph sv = sess_graph s1 →
  tf.collect s1 (saver_var_list sv) = Return values →
  sessions (world st) !! sess2 = Some s2 →
  saver_graph sv = sess_graph s2 →
  tf.checkpoint_state_file (os_path.dirname dir)
    = tf.checkpoint_state_file dir →
  ∃ st1 st2 s2',
    save sess1 ckpt_dir st = (Return (), st1) ∧
    load sess2 ckpt_dir st1 = (Return (), st2) ∧
    sessions (world st2) !! sess2 = Some s2' ∧
    (∀ v, v ∈ saver_var_list sv →
          sess_values s2' !! var_name v = sess_values s1 !! var_name v) ∧
    mode (self st2) = Some RETRAIN.
Proof.
  intros Hr Hsv Hgs Hs1 Hstep Hg1 Hcol Hs2 Hg2 Hagree.
  pose proof (save_writes _ _ _ _ _ _ _ _ _ Hr Hsv Hgs Hs1 Hstep Hg1 Hcol)
    as Hsave.
  set (path := dir +:+ "-" +:+ pretty step) in *.
  set (st1 := {| self := self st; world := with_files _ (world st);
                 trace := _ |}) in Hsave.
  assert (Hlatest : tf.latest_checkpoint dir (files (world st1)) = Some path).
  { unfold tf.latest_checkpoint. simpl. rewrite <- Hagree.
    rewrite lookup_insert_eq. by rewrite lookup_insert_eq. }
  assert (Hfile : checkpoint_files (files (world st1)) !! path = Some values).
  { simpl. apply lookup_insert_eq. }
  destruct (assign_all_is_Some (saver_var_list sv) values (sess_values s2))
    as [values2 Hassign].
  { intros v Hv. by apply (collect_lookup _ _ _ Hcol). }
  assert (Hrestore : tf.Saver_restore sv s2 path (files (world st1)) =
            Return {| sess_graph := sess_graph s2; sess_values := values2 |}).
  { unfold tf.Saver_restore. rewrite Hfile.
    rewrite decide_True by done. by rewrite Hassign. }
  exists st1. eexists. eexists. split; [exact Hsave|]. split.
  { exact (load_checkpoint sess2 ckpt_dir st1 dir path sv s2 _ Hr Hlatest
             (checkpoint_name_not_empty _ _) Hsv Hs2 Hrestore). }
  simpl. split; [apply lookup_insert_eq|]. split; [|reflexivity].
  intros v Hv. rewrite (assign_all_lookup _ _ _ _ Hassign).
  rewrite bool_decide_eq_true_2 by (apply list_elem_of_fmap; by exists v).
  by apply (collect_lookup _ _ _ Hcol).
Qed.

(** C7, on the model of [Example] configured with the checkpoint
    directory ["ckpt"] and saved from session 1, whose global step is 5.
    [save] resolves the directory from the configuration as [load]
    does and hands it to the saver, which takes it for a filename
    prefix: the values are stored under ["ckpt-5"], tagged with the
    global step, and recorded in the state file ["checkpoint"], both in
    the directory above ["ckpt"].  Nothing is written in ["ckpt"]: no
    checkpoint is found there afterwards. *)
Theorem save_writes_beside_the_directory :
  ∃ st',
    save 1 None (Example.model (Example.with_dir "ckpt")) = (Return (), st') ∧
    map_to_list (checkpoint_files (files (world st'))) =
      [("ckpt-5", <["global_step" := 5%Z]> (<["weights" := 42%Z]> ∅))] ∧
    map_to_list (checkpoint_states (files (world st'))) =
      [("checkpoint", "ckpt-5")] ∧
    os_path.dirname "ckpt-5" = "" ∧
    os_path.dirname "checkpoint" = "" ∧
    tf.latest_checkpoint "ckpt" (files (world st')) = None ∧
    checkpoint_states (files (world st'))
      !! tf.checkpoint_state_file "ckpt" = None.
Proof.
  eexists. split; [vm_compute; reflexivity|].
  repeat split; vm_compute; reflexivity.
Qed.

(** C8, on the same model.  Session 1 holds the trained values
    (global step 5, weights 42), session 2 freshly initialized ones
    (0 and 3).  After [save] from session 1 and [load] into session 2
    with the same checkpoint directory ["ckpt"], both returning
    normally, session 2 still holds 0 and 3 and the mode is still
    [TRAIN]: the checkpoint was written beside the directory, [load]
    finds none in it and logs so. *)
Theorem save_then_load_restores_nothing :
  ∃ st1 st2 s1 s2,
    save 1 None (Example.model (Example.with_dir "ckpt")) = (Return (), st1) ∧
    load 2 None st1 = (Return (), st2) ∧
    sessions (world st1) !! 1 = Some s1 ∧
    sess_values s1 !! "global_step" = Some 5%Z ∧
    sess_values s1 !! "weights" = Some 42%Z ∧
    sessions (world st2) !! 2 = Some s2 ∧
    sess_values s2 !! "global_step" = Some 0%Z ∧
    sess_values s2 !! "weights" = Some 3%Z ∧
    mode (self st2) = Some TRAIN ∧
    last (trace st2) = Some (ELog ("No model checkpoint" +:+ nl)).
Proof.
  do 4 eexists. split; [vm_compute; reflexivity|].
  split; [vm_compute; reflexivity|].
  repeat split; vm_compute; reflexivity.
Qed.

(** ** The properties on the model of [Example] *)

Lemma Variable_new_respects_scope initial_value trainable name w :
  respects_scope w (tf.Variable_new initial_value trainable name w).2.
Proof.
  repeat split. intros g v Hv. unfold tf.Variable_new. simpl.
  destruct (decide (g = tf.get_default_graph w)) as [->|Hne].
  - rewrite graph_of_set_graph. simpl. apply elem_of_app. by left.
  - unfold tf.graph_of, tf.set_graph. simpl.
    by rewrite lookup_insert_ne.
Qed.

Lemma construction_order_witness :
  override_init_graph Example.cls = Some Example.init_graph ∧
  ∃ st sv op,
    construct Example.cls (Example.with_dir "ckpt") (Some 7) Example.world0
      = (Return (), st) ∧
    trace st = construction_trace (Some 7) 7 ∧
    self st = set_mode TRAIN
                (set_init_op op
                   (set_saver sv
                      (Example.returned (Example.with_dir "ckpt") (Some 7)).1)) ∧
    mode (self st) = Some TRAIN ∧
    init_op (self st) = Some op ∧
    op_graph op = tf.get_default_graph Example.world0 ∧
    default_graph_stack (world st) = default_graph_stack Example.world0.
Proof.
  split; [reflexivity|].
  destruct (construction_order Example.cls Example.init_graph
              (Example.with_dir "ckpt") (Some 7) Example.world0
              (Example.returned (Example.with_dir "ckpt") (Some 7)).1
              (Example.returned (Example.with_dir "ckpt") (Some 7)).2
              eq_refl eq_refl (Variable_new_respects_scope _ _ _ _))
    as (st & sv & op & H1 & _ & _ & H2 & H3 & _ & _ & _ & H4
        & _ & H5 & H6 & _ & H7 & _).
  exists st, sv, op. repeat split; try assumption.
  by rewrite H7.
Defined.

Lemma init_op_in_ambient_graph_witness :
  7 ≠ tf.get_default_graph Example.world0 ∧
  ∃ st op,
    construct Example.cls (Example.with_dir "ckpt") (Some 7) Example.world0
      = (Return (), st) ∧
    init_op (self st) = Some op ∧
    op_graph op = 0 ∧
    op_graph op ≠ 7.
Proof.
  assert (Hne : 7 ≠ tf.get_default_graph Example.world0) by discriminate.
  split; [exact Hne|].
  destruct (init_op_in_ambient_graph Example.cls Example.init_graph
              (Example.with_dir "ckpt") 7 Example.world0
              (Example.returned (Example.with_dir "ckpt") (Some 7)).1
              (Example.returned (Example.with_dir "ckpt") (Some 7)).2
              eq_refl eq_refl (Variable_new_respects_scope _ _ _ _) Hne)
    as (st & op & before & after & H1 & H2 & H3 & H4 & _).
  exists st, op. repeat split; assumption.
Defined.


Lemma load_restores_then_retrain_witness :
  ∃ stored st',
    load 2 None (Example.saved (Example.with_dir "ckpt/")) = (Return (), st') ∧
    checkpoint_files (files (world (Example.saved (Example.with_dir "ckpt/"))))
      !! "ckpt/-5" = Some stored ∧
    mode (self st') = Some RETRAIN.
Proof.
  destruct (load_restores_then_retrain 2 None
              (Example.saved (Example.with_dir "ckpt/")) "ckpt/" "ckpt/-5"
              {| saver_graph := 0;
                 saver_var_list :=
                   [mkVar 0 "global_step" 0%Z false;
                    mkVar 0 "weights" 3%Z true] |}
              {| sess_graph := 0;
                 sess_values := <["global_step" := 0%Z]>
                                  (<["weights" := 3%Z]> ∅) |}
              {| sess_graph := 0;
                 sess_values := <["global_step" := 5%Z]>
                                  (<["weights" := 42%Z]> ∅) |})
    as (stored & st' & H1 & H2 & _ & _ & H3 & _).
  - exists (Example.with_dir "ckpt/"). split; vm_compute; reflexivity.
  - vm_compute; reflexivity.
  - discriminate.
  - vm_compute; reflexivity.
  - vm_compute; reflexivity.
  - vm_compute; reflexivity.
  - exists stored, st'. repeat split; assumption.
Defined.

Lemma load_without_checkpoint_witness :
  tf.latest_checkpoint "ckpt"
    (files (world (Example.model (Example.with_dir "ckpt")))) = None ∧
  ∃ st',
    load 2 None (Example.model (Example.with_dir "ckpt")) = (Return (), st') ∧
    self st' = self (Example.model (Example.with_dir "ckpt")) ∧
    world st' = world (Example.model (Example.with_dir "ckpt")).
Proof.
  assert (H : tf.latest_checkpoint "ckpt"
                (files (world (Example.model (Example.with_dir "ckpt"))))
              = None) by (vm_compute; reflexivity).
  split; [exact H|].
  destruct (load_without_checkpoint_changes_nothing 2 None
              (Example.model (Example.with_dir "ckpt")) "ckpt")
    as (st' & H1 & H2 & _ & H3 & _).
  - exists (Example.with_dir "ckpt"). split; vm_compute; reflexivity.
  - exact H.
  - exists st'. repeat split; assumption.
Defined.

Lemma no_directory_raises_assertion_witness :
  config (self (Example.model Example.without_dir))
    = Some Example.without_dir ∧
  Config.ckpt_dir Example.without_dir = None ∧
  ∃ st1 st2,
    load 2 None (Example.model Example.without_dir)
      = (Raise (AssertionError "`ckpt_dir` is None!"), st1) ∧
    save 1 None (Example.model Example.without_dir)
      = (Raise (AssertionError "`ckpt_dir` is None!"), st2) ∧
    world st1 = world (Example.model Example.without_dir) ∧
    world st2 = world (Example.model Example.without_dir).
Proof.
  assert (H : config (self (Example.model Example.without_dir))
              = Some Example.without_dir) by (vm_compute; reflexivity).
  split; [exact H|]. split; [reflexivity|].
  destruct (no_directory_raises_assertion 2
              (Example.model Example.without_dir) Example.without_dir
              H eq_refl)
    as (st1 & _ & H1 & _ & _ & H2 & _).
  destruct (no_directory_raises_assertion 1
              (Example.model Example.without_dir) Example.without_dir
              H eq_refl)
    as (_ & st2 & _ & H3 & _ & _ & _ & H4 & _).
  exists st1, st2. repeat split; assumption.
Defined.

Lemma unimplemented_hooks_raise_witness :
  override_train BaseModel_class = None ∧
  call_train BaseModel_class 1 [] (Example.model Example.without_dir)
    = (Raise NotImplementedError,
       extend (Example.model Example.without_dir) [EMethod "train"]) ∧
  call_init_graph BaseModel_class (Example.model Example.without_dir)
    = (Raise NotImplementedError,
       extend (Example.model Example.without_dir) [EMethod "_init_graph"]).
Proof.
  split; [reflexivity|].
  destruct (unimplemented_hooks_raise BaseModel_class 1 []
              (Example.model Example.without_dir))
    as (_ & _ & _ & _ & H1 & H2 & _).
  split; [exact (H2 eq_refl) | exact (H1 eq_refl)].
Defined.

Lemma explicit_directory_skips_assertion_witness :
  Config.ckpt_dir Example.without_dir = None ∧
  (save 1 (Some "ckpt/") (Example.model Example.without_dir)).1
    ≠ Raise (AssertionError "`ckpt_dir` is None!") ∧
  (load 2 (Some "ckpt/") (Example.model Example.without_dir)).1
    ≠ Raise (AssertionError "`ckpt_dir` is None!").
Proof.
  split; [reflexivity|].
  destruct (explicit_directory_skips_assertion 1 "ckpt/"
              (Example.model Example.without_dir)) as (_ & _ & H1 & _).
  destruct (explicit_directory_skips_assertion 2 "ckpt/"
              (Example.model Example.without_dir)) as (_ & _ & H2 & _).
  split; [apply H1 | apply H2].
Defined.

(** * Further properties of the lifecycle *)

(** ** Inversion of the calls that return *)

Lemma load_Return_inv sess ckpt_dir st st1 :
  load sess ckpt_dir st = (Return (), st1) →
  ∃ dir, resolves ckpt_dir (self st) dir ∧
    (tf.latest_checkpoint dir (files (world st)) = None ∨
     tf.latest_checkpoint dir (files (world st)) = Some "" ∨
     ∃ path sv s s',
       tf.latest_checkpoint dir (files (world st)) = Some path ∧
       path ≠ "" ∧
       saver (self st) = Some sv ∧
       sessions (world st) !! sess = Some s ∧
       tf.Saver_restore sv s path (files (world st)) = Return s').
Proof.
  intros H.
  assert (∃ dir, resolves ckpt_dir (self st) dir) as [dir Hr].
  { destruct ckpt_dir as [d|]; [by exists d|]. revert H. run.
    destruct (config (self st)) as [cfg|]; simpl; [|discriminate].
    destruct (Config.ckpt_dir cfg) as [d|] eqn:Hd; simpl; [|discriminate].
    intros _. exists d, cfg. by split. }
  exists dir. split; [exact Hr|].
  destruct (tf.latest_checkpoint dir (files (world st))) as [path|] eqn:Hl;
    [|by left].
  right. destruct (decide (path = "")) as [->|Hp]; [by left|]. right.
  assert (Ht : truthy (Some path) = true).
  { simpl. rewrite bool_decide_eq_false_2; done. }
  destruct (saver (self st)) as [sv|] eqn:Hsv.
  - destruct (sessions (world st) !! sess) as [s|] eqn:Hs.
    + destruct (tf.Saver_restore sv s path (files (world st))) as [s'|e] eqn:Hre.
      * by exists path, sv, s, s'.
      * exfalso. revert H. destruct ckpt_dir as [d|]; simpl in Hr.
        -- subst d. run. rewrite Hl, Ht. simpl. rewrite Hsv. simpl.
           rewrite Hs. simpl. rewrite Hre. discriminate.
        -- destruct Hr as (cfg & Hc & Hd). run. rewrite Hc. simpl.
           rewrite Hd. simpl. rewrite Hl, Ht. simpl. rewrite Hsv. simpl.
           rewrite Hs. simpl. rewrite Hre. discriminate.
    + exfalso. revert H. destruct ckpt_dir as [d|]; simpl in Hr.
      * subst d. run. rewrite Hl, Ht. simpl. rewrite Hsv. simpl. rewrite Hs.
        simpl. discriminate.
      * destruct Hr as (cfg & Hc & Hd). run. rewrite Hc. simpl. rewrite Hd.
        simpl. rewrite Hl, Ht. simpl. rewrite Hsv. simpl. rewrite Hs.
        simpl. discriminate.
  - exfalso. revert H. destruct ckpt_dir as [d|]; simpl in Hr.
    + subst d. run. rewrite Hl, Ht. simpl. rewrite Hsv. simpl. discriminate.
    + destruct Hr as (cfg & Hc & Hd). run. rewrite Hc. simpl. rewrite Hd.
      simpl. rewrite Hl, Ht. simpl. rewrite Hsv. simpl. discriminate.
Qed.

Lemma Saver_save_Return_inv sv s dir gs fs f fs' :
  tf.Saver_save sv s dir gs fs = Return (f, fs') →
  ∃ step values,
    tf.Session_run_variable s gs = Return step ∧
    saver_graph sv = sess_graph s ∧
    tf.collect s (saver_var_list sv) = Return values.
Proof.
  unfold tf.Saver_save. intros H.
  destruct (tf.Session_run_variable s gs) as [step|]; [|discriminate].
  case_decide; [|discriminate].
  destruct (tf.collect s (saver_var_list sv)) as [values|]; [|discriminate].
  by exists step, values.
Qed.

Lemma save_Return_inv sess ckpt_dir st st1 :
  save sess ckpt_dir st = (Return (), st1) →
  ∃ dir sv gs s step values,
    resolves ckpt_dir (self st) dir ∧
    saver (self st) = Some sv ∧
    global_step (self st) = Some gs ∧
    sessions (world st) !! sess = Some s ∧
    tf.Session_run_variable s gs = Return step ∧
    saver_graph sv = sess_graph s ∧
    tf.collect s (saver_var_list sv) = Return values.
Proof.
  intros H.
  assert (∃ dir, resolves ckpt_dir (self st) dir ∧
            ∃ sv gs s f fs',
              saver (self st) = Some sv ∧ global_step (self st) = Some gs ∧
              sessions (world st) !! sess = Some s ∧
              tf.Saver_save sv s dir gs (files (world st)) = Return (f, fs'))
    as (dir & Hr & sv & gs & s & f & fs' & Hsv & Hgs & Hs & Hsave).
  { revert H. destruct ckpt_dir as [d|]; run.
    - destruct (saver (self st)) as [sv|]; simpl; [|discriminate].
      destruct (global_step (self st)) as [gs|]; simpl; [|discriminate].
      destruct (sessions (world st) !! sess) as [s|]; simpl; [|discriminate].
      destruct (tf.Saver_save _ _ _ _ _) as [[f fs']|e] eqn:E; simpl;
        [|discriminate].
      intros _. exists d. split; [reflexivity|]. by exists sv, gs, s, f, fs'.
    - destruct (config (self st)) as [cfg|]; simpl; [|discriminate].
      destruct (Config.ckpt_dir cfg) as [d|] eqn:Hd; simpl; [|discriminate].
      destruct (saver (self st)) as [sv|]; simpl; [|discriminate].
      destruct (global_step (self st)) as [gs|]; simpl; [|discriminate].
      destruct (sessions (world st) !! sess) as [s|]; simpl; [|discriminate].
      destruct (tf.Saver_save _ _ _ _ _) as [[f fs']|e] eqn:E; simpl;
        [|discriminate].
      intros _. exists d. split; [by exists cfg|]. by exists sv, gs, s, f, fs'. }
  destruct (Saver_save_Return_inv _ _ _ _ _ _ _ Hsave)
    as (step & values & Hstep & Hg & Hcol).
  by exists dir, sv, gs, s, step, values.
Qed.

Lemma assign_all_Some_stored vs stored values values' :
  tf.assign_all vs stored values = Some values' →
  ∀ v, v ∈ vs → is_Some (stored !! var_name v).
Proof.
  revert values. induction vs as [|u vs IH]; simpl; intros values H v Hv.
  - by apply not_elem_of_nil in Hv.
  - destruct (stored !! var_name u) as [x|] eqn:Ex; [|discriminate].
    apply elem_of_cons in Hv as [->|Hv]; [by rewrite Ex | by eapply IH].
Qed.

(** Restoring a checkpoint into a session that was just restored from
    it changes nothing. *)
Lemma Saver_restore_idempotent sv s path fs s' :
  tf.Saver_restore sv s path fs = Return s' →
  tf.Saver_restore sv s' path fs = Return s'.
Proof.
  unfold tf.Saver_restore. intros H.
  destruct (checkpoint_files fs !! path) as [stored|]; [|discriminate].
  case_decide as Hg; [|discriminate].
  destruct (tf.assign_all _ _ (sess_values s)) as [values|] eqn:Ea;
    [|discriminate].
  injection H as <-. simpl. rewrite decide_True by done.
  destruct (assign_all_is_Some (saver_var_list sv) stored values)
    as [values2 Ea2].
  { by eapply assign_all_Some_stored. }
  rewrite Ea2. do 2 f_equal. apply map_eq. intros n.
  rewrite (assign_all_lookup _ _ _ _ Ea2), (assign_all_lookup _ _ _ _ Ea).
  by case_bool_decide.
Qed.

(** ** Paths *)

Lemma list_ascii_of_string_app a b :
  list_ascii_of_string (a +:+ b)
  = list_ascii_of_string a ++ list_ascii_of_string b.
Proof.
  induction a as [|c a IH]; [reflexivity|].
  change (String c a +:+ b) with (String c (a +:+ b)). simpl. by rewrite IH.
Qed.

Lemma string_app_assoc a b c : (a +:+ b) +:+ c = a +:+ (b +:+ c).
Proof.
  induction a as [|x a IH]; [reflexivity|].
  change (String x a +:+ b) with (String x (a +:+ b)).
  change (String x (a +:+ b) +:+ c) with (String x ((a +:+ b) +:+ c)).
  change (String x a +:+ (b +:+ c)) with (String x (a +:+ (b +:+ c))).
  by rewrite IH.
Qed.

(** The directory part of a directory path written with one trailing
    separator is that directory. *)
Lemma dirname_trailing_separator base :
  base ≠ "" → os_path.endswith_sep base = false →
  os_path.dirname (base +:+ "/") = base.
Proof.
  intros Hne Hend. unfold os_path.dirname, os_path.endswith_sep in *.
  rewrite list_ascii_of_string_app. simpl.
  rewrite rev_app_distr. simpl.
  destruct (rev (list_ascii_of_string base)) as [|c r] eqn:Er.
  - exfalso. apply Hne.
    rewrite <- (string_of_list_ascii_of_string base).
    rewrite <- (rev_involutive (list_ascii_of_string base)), Er. reflexivity.
  - simpl. rewrite Hend.
    change (rev r ++ [c]) with (rev (c :: r)).
    rewrite <- Er, rev_involutive.
    apply string_of_list_ascii_of_string.
Qed.

Lemma state_file_trailing_separator base :
  base ≠ "" → os_path.endswith_sep base = false →
  tf.checkpoint_state_file (os_path.dirname (base +:+ "/"))
  = tf.checkpoint_state_file (base +:+ "/").
Proof.
  intros Hne Hend. rewrite dirname_trailing_separator by done.
  unfold tf.checkpoint_state_file, os_path.join. simpl.
  rewrite Hend, bool_decide_eq_false_2 by done. simpl.
  assert (Hend' : os_path.endswith_sep (base +:+ "/") = true).
  { unfold os_path.endswith_sep. rewrite list_ascii_of_string_app. simpl.
    rewrite rev_app_distr. reflexivity. }
  rewrite Hend', orb_true_r. by rewrite string_app_assoc.
Qed.

(** ** The mode names *)

(** X1.  The four modes are stored as four different strings, so that
    comparing the [mode] attribute with a [ModeKeys] constant tells the
    modes apart. *)
Theorem ModeKeys_value_inj m1 m2 :
  ModeKeys_value m1 = ModeKeys_value m2 ↔ m1 = m2.
Proof.
  split; [|by intros ->]. by destruct m1, m2.
Qed.

(** ** The configured directory as default *)

(** X2.  When the configuration has a checkpoint directory, [load] and
    [save] without a [ckpt_dir] argument do exactly what they do when
    given that directory as argument: same outcome, same instance, same
    framework state, and the same steps but for the assertion that is
    evaluated first. *)
Theorem configured_directory_is_the_default sess st cfg d :
  config (self st) = Some cfg →
  Config.ckpt_dir cfg = Some d →
  (load sess None st).1 = (load sess (Some d) st).1 ∧
  self (load sess None st).2 = self (load sess (Some d) st).2 ∧
  world (load sess None st).2 = world (load sess (Some d) st).2 ∧
  (∃ events,
     trace (load sess None st).2
       = trace st ++ EMethod "load" :: EAssert true :: events ∧
     trace (load sess (Some d) st).2
       = trace st ++ EMethod "load" :: events) ∧
  (save sess None st).1 = (save sess (Some d) st).1 ∧
  self (save sess None st).2 = self (save sess (Some d) st).2 ∧
  world (save sess None st).2 = world (save sess (Some d) st).2 ∧
  (∃ events,
     trace (save sess None st).2
       = trace st ++ EMethod "save" :: EAssert true :: events ∧
     trace (save sess (Some d) st).2
       = trace st ++ EMethod "save" :: events).
Proof.
  intros Hc Hd. run. rewrite Hc. simpl. rewrite Hd. simpl.
  split_and!.
  - destruct (truthy _); simpl; [|done].
    destruct (saver (self st)) as [sv|]; simpl; [|done].
    destruct (sessions (world st) !! sess) as [s|]; simpl; [|done].
    by destruct (tf.Saver_restore _ _ _ _) as [s'|e].
  - destruct (truthy _); simpl; [|done].
    destruct (saver (self st)) as [sv|]; simpl; [|done].
    destruct (sessions (world st) !! sess) as [s|]; simpl; [|done].
    by destruct (tf.Saver_restore _ _ _ _) as [s'|e].
  - destruct (truthy _); simpl; [|done].
    destruct (saver (self st)) as [sv|]; simpl; [|done].
    destruct (sessions (world st) !! sess) as [s|]; simpl; [|done].
    by destruct (tf.Saver_restore _ _ _ _) as [s'|e].
  - destruct (truthy _); simpl;
      [ destruct (saver (self st)) as [sv|]; simpl;
        [ destruct (sessions (world st) !! sess) as [s|]; simpl;
          [ destruct (tf.Saver_restore _ _ _ _) as [s'|e]; simpl | ] | ] | ];
      rewrite <- ?app_assoc; simpl; eexists; split; reflexivity.
  - destruct (saver (self st)) as [sv|]; simpl; [|done].
    destruct (global_step (self st)) as [gs|]; simpl; [|done].
    destruct (sessions (world st) !! sess) as [s|]; simpl; [|done].
    by destruct (tf.Saver_save _ _ _ _ _) as [[f fs']|e].
  - destruct (saver (self st)) as [sv|]; simpl; [|done].
    destruct (global_step (self st)) as [gs|]; simpl; [|done].
    destruct (sessions (world st) !! sess) as [s|]; simpl; [|done].
    by destruct (tf.Saver_save _ _ _ _ _) as [[f fs']|e].
  - destruct (saver (self st)) as [sv|]; simpl; [|done].
    destruct (global_step (self st)) as [gs|]; simpl; [|done].
    destruct (sessions (world st) !! sess) as [s|]; simpl; [|done].
    by destruct (tf.Saver_save _ _ _ _ _) as [[f fs']|e].
  - destruct (saver (self st)) as [sv|]; simpl;
      [ destruct (global_step (self st)) as [gs|]; simpl;
        [ destruct (sessions (world st) !! sess) as [s|]; simpl;
          [ destruct (tf.Saver_save _ _ _ _ _) as [[f fs']|e]; simpl | ] | ] | ];
      rewrite <- ?app_assoc; simpl; eexists; split; reflexivity.
Qed.

(** ** What [load] and [save] leave alone *)

Ltac load_cases sess st :=
  (destruct (truthy _); simpl; [|by repeat split]);
  (destruct (saver (self st)) as [sv|] eqn:Hsv; simpl; [|by repeat split]);
  (destruct (sessions (world st) !! sess) as [s|]; simpl; [|by repeat split]);
  (destruct (tf.Saver_restore _ _ _ _) as [s'|e]; simpl; [|by repeat split]);
  split_and!; try done; intros other Hne; by rewrite lookup_insert_ne.

(** X3.  Whatever its arguments and however it ends, [load] writes no
    file, touches no graph and no other session than the one it is
    given, and changes no attribute of the instance other than
    [mode]. *)
Theorem load_touches_only_session_and_mode sess ckpt_dir st :
  files (world (load sess ckpt_dir st).2) = files (world st) ∧
  graphs (world (load sess ckpt_dir st).2) = graphs (world st) ∧
  default_graph_stack (world (load sess ckpt_dir st).2)
    = default_graph_stack (world st) ∧
  global_default_graph (world (load sess ckpt_dir st).2)
    = global_default_graph (world st) ∧
  (∀ other, other ≠ sess →
            sessions (world (load sess ckpt_dir st).2) !! other
            = sessions (world st) !! other) ∧
  config (self (load sess ckpt_dir st).2) = config (self st) ∧
  graph (self (load sess ckpt_dir st).2) = graph (self st) ∧
  global_step (self (load sess ckpt_dir st).2) = global_step (self st) ∧
  saver (self (load sess ckpt_dir st).2) = saver (self st) ∧
  init_op (self (load sess ckpt_dir st).2) = init_op (self st).
Proof.
  destruct ckpt_dir as [d|]; run.
  - load_cases sess st.
  - destruct (config (self st)) as [cfg|] eqn:Hcfg; simpl; [|by repeat split].
    destruct (Config.ckpt_dir cfg) as [d|]; simpl; [|by repeat split].
    load_cases sess st.
Qed.

Ltac no_saved_log :=
  rewrite <- ?app_assoc; rewrite drop_app_length; simpl;
  let Hb := fresh "Hb" in
  intros Hb;
  repeat (apply elem_of_cons in Hb as [Hb|Hb]; [discriminate|]);
  by apply not_elem_of_nil in Hb.

Ltac save_cases sess st :=
  (destruct (saver (self st)) as [sv|] eqn:Hsv; simpl;
     [|repeat split; try done; no_saved_log]);
  (destruct (global_step (self st)) as [gs|] eqn:Hgs; simpl;
     [|repeat split; try done; no_saved_log]);
  (destruct (sessions (world st) !! sess) as [s|]; simpl;
     [|repeat split; try done; no_saved_log]);
  (destruct (tf.Saver_save _ _ _ _ _) as [[f fs']|e']; simpl;
     repeat split; try done; no_saved_log).

(** X4.  Whatever its arguments and however it ends, [save] changes no
    attribute of the instance, no session and no graph.  When it
    raises, no file has changed either, and "Model is saved." has not
    been logged. *)
Theorem save_touches_only_files sess ckpt_dir st :
  self (save sess ckpt_dir st).2 = self st ∧
  sessions (world (save sess ckpt_dir st).2) = sessions (world st) ∧
  graphs (world (save sess ckpt_dir st).2) = graphs (world st) ∧
  default_graph_stack (world (save sess ckpt_dir st).2)
    = default_graph_stack (world st) ∧
  global_default_graph (world (save sess ckpt_dir st).2)
    = global_default_graph (world st) ∧
  (∀ e, (save sess ckpt_dir st).1 = Raise e →
        world (save sess ckpt_dir st).2 = world st ∧
        ELog "Model is saved."
          ∉ drop (length (trace st)) (trace (save sess ckpt_dir st).2)).
Proof.
  destruct ckpt_dir as [d|]; run.
  - save_cases sess st.
  - destruct (config (self st)) as [cfg|] eqn:Hcfg; simpl;
      [|repeat split; try done; no_saved_log].
    destruct (Config.ckpt_dir cfg) as [d|]; simpl;
      [|repeat split; try done; no_saved_log].
    save_cases sess st.
Qed.

(** X5.  When the saver's restore raises, the exception surfaces from
    [load] as it is: the restore call is the last step, "model loaded"
    is not logged, and the instance (so its mode), the sessions and the
    files are as before. *)
Theorem failed_restore_surfaces sess ckpt_dir st dir path sv s e :
  resolves ckpt_dir (self st) dir →
  tf.latest_checkpoint dir (files (world st)) = Some path →
  path ≠ "" →
  saver (self st) = Some sv →
  sessions (world st) !! sess = Some s →
  tf.Saver_restore sv s path (files (world st)) = Raise e →
  load sess ckpt_dir st =
    (Raise e,
     extend st ([EMethod "load"] ++ resolution_events ckpt_dir ++
                [ECall (tf_train_latest_checkpoint dir);
                 ELog ("Loading the latest model from checkpoint: "
                       +:+ path +:+ " ..." +:+ nl);
                 ECall (saver_restore sess path)])).
Proof.
  intros Hr Hl Hp Hsv Hs Hre.
  assert (Ht : truthy (Some path) = true).
  { simpl. rewrite bool_decide_eq_false_2; done. }
  destruct ckpt_dir as [d|]; simpl in Hr.
  - subst d. run. rewrite Hl, Ht. simpl. rewrite Hsv. simpl. rewrite Hs. simpl.
    rewrite Hre. simpl. rewrite <- ?app_assoc. reflexivity.
  - destruct Hr as (cfg & Hc & Hd). run. rewrite Hc. simpl. rewrite Hd. simpl.
    rewrite Hl, Ht. simpl. rewrite Hsv. simpl. rewrite Hs. simpl.
    rewrite Hre. simpl. rewrite <- ?app_assoc. reflexivity.
Qed.

(** ** Repeating a call *)

(** X6.  A [load] that returned can be repeated with the same
    arguments: the second [load] returns too and leaves the instance
    and the framework state exactly as the first one left them. *)
Theorem load_twice sess ckpt_dir st st1 :
  load sess ckpt_dir st = (Return (), st1) →
  ∃ st2, load sess ckpt_dir st1 = (Return (), st2) ∧
         self st2 = self st1 ∧ world st2 = world st1.
Proof.
  intros H.
  destruct (load_Return_inv _ _ _ _ H)
    as (dir & Hr & [Hl | [Hl | (path & sv & s & s' & Hl & Hp & Hsv & Hs & Hre)]]).
  - assert (Ht : truthy (tf.latest_checkpoint dir (files (world st))) = false)
      by (by rewrite Hl).
    rewrite (load_no_checkpoint _ _ _ _ Hr Ht) in H. injection H as <-.
    eexists. split; [by apply (load_no_checkpoint _ _ _ dir)|]. done.
  - assert (Ht : truthy (tf.latest_checkpoint dir (files (world st))) = false)
      by (by rewrite Hl).
    rewrite (load_no_checkpoint _ _ _ _ Hr Ht) in H. injection H as <-.
    eexists. split; [by apply (load_no_checkpoint _ _ _ dir)|]. done.
  - rewrite (load_checkpoint _ _ _ _ _ _ _ _ Hr Hl Hp Hsv Hs Hre) in H.
    injection H as <-.
    eexists. split.
    + eapply (load_checkpoint sess ckpt_dir _ dir path sv s' s').
      * destruct ckpt_dir; exact Hr.
      * exact Hl.
      * exact Hp.
      * exact Hsv.
      * simpl. apply lookup_insert_eq.
      * simpl. by apply Saver_restore_idempotent in Hre.
    + simpl. split; [reflexivity|].
      unfold with_session. simpl. by rewrite insert_insert_eq.
Qed.

(** X7.  A [save] that returned can be repeated with the same
    arguments while the session has not changed: the second [save]
    returns too and leaves the files exactly as the first one left
    them. *)
Theorem save_twice sess ckpt_dir st st1 :
  save sess ckpt_dir st = (Return (), st1) →
  ∃ st2, save sess ckpt_dir st1 = (Return (), st2) ∧
         self st2 = self st1 ∧ world st2 = world st1.
Proof.
  intros H.
  destruct (save_Return_inv _ _ _ _ H)
    as (dir & sv & gs & s & step & values
        & Hr & Hsv & Hgs & Hs & Hstep & Hg & Hcol).
  rewrite (save_writes _ _ _ _ _ _ _ _ _ Hr Hsv Hgs Hs Hstep Hg Hcol) in H.
  injection H as <-.
  eexists. split.
  - by apply (save_writes sess ckpt_dir _ dir sv gs s step values).
  - simpl. split; [reflexivity|]. unfold with_files. simpl.
    by rewrite !insert_insert_eq.
Qed.

(** X8.  Once the mode is [RETRAIN] it stays [RETRAIN] through any
    sequence of calls of the methods of [BaseModel]: nothing sets it
    back to [TRAIN]. *)
Theorem RETRAIN_is_kept cs st :
  mode (self st) = Some RETRAIN →
  mode (self (after_all cs st)) = Some RETRAIN.
Proof.
  revert st. induction cs as [|c cs IH]; intros st H; simpl; [exact H|].
  apply IH.
  destruct (mode_after c st) as [-> | (_ & _ & _ & _ & _ & _ & ->)]; done.
Qed.

(** ** Construction and the graph scope *)

(** X9.  A construction leaves the stack of default graphs as it found
    it, however it ends: when [_init_graph] is not overridden, and when
    it is, whether the override returns or raises and whether the saver
    can then be built or not, as long as the override itself leaves the
    stack as it found it. *)
Theorem construction_restores_default_graph cls cfg supplied w :
  (override_init_graph cls = None →
   default_graph_stack (world (construct cls cfg supplied w).2)
     = default_graph_stack w) ∧
  (∀ h r o' w',
     override_init_graph cls = Some h →
     h (hook_entry cfg supplied w).1 (hook_entry cfg supplied w).2
       = (r, (o', w')) →
     default_graph_stack w' = default_graph_stack (hook_entry cfg supplied w).2 →
     default_graph_stack (world (construct cls cfg supplied w).2)
       = default_graph_stack w).
Proof.
  split.
  - intros Hcls. destruct supplied as [g|]; run; rewrite Hcls; simpl;
      unfold tf.as_default_exit; simpl; rewrite decide_True by done;
      reflexivity.
  - intros h r o' w' Hcls Hh Hstack. rewrite hook_entry_stack in Hstack.
    unfold hook_entry in Hh. simpl in Hh.
    destruct supplied as [g|]; simpl in *;
      run; rewrite Hcls; simpl; rewrite Hh; simpl;
      (destruct r as [[]|e]; simpl;
       [ destruct (tf.Saver_new w') as [sv|e]; simpl | ]);
      unfold tf.as_default_exit; rewrite Hstack; simpl;
      rewrite decide_True by done; simpl;
      try reflexivity;
      unfold tf.group; simpl; rewrite decide_True by done; reflexivity.
Qed.

(** X10.  When the subclass's [_init_graph] raises, the construction
    raises the same exception right after leaving the graph scope: the
    saver, the initialization operation and the mode are never
    assigned, so that an instance left by the failed construction has
    none of them unless [_init_graph] set them itself.  The framework
    state is the one [_init_graph] left, with the model's graph popped
    from the stack of default graphs, which is as before the
    construction. *)
Theorem failed_init_graph_propagates cls h cfg supplied w e o' w' :
  override_init_graph cls = Some h →
  h (hook_entry cfg supplied w).1 (hook_entry cfg supplied w).2
    = (Raise e, (o', w')) →
  default_graph_stack w' = default_graph_stack (hook_entry cfg supplied w).2 →
  ∃ st events,
    construct cls cfg supplied w = (Raise e, st) ∧
    self st = o' ∧
    graphs (world st) = graphs w' ∧
    sessions (world st) = sessions w' ∧
    files (world st) = files w' ∧
    trace st = events ++ [EMethod "_init_graph"; EExit (the_graph supplied w)] ∧
    (EAssign "saver" ∉ events) ∧ (EAssign "init_op" ∉ events) ∧
    (EAssign "mode" ∉ events) ∧
    saver (hook_entry cfg supplied w).1 = None ∧
    init_op (hook_entry cfg supplied w).1 = None ∧
    mode (hook_entry cfg supplied w).1 = None ∧
    default_graph_stack (world st) = default_graph_stack w ∧
    global_default_graph (world st) = global_default_graph w' ∧
    world st =
      {| default_graph_stack := default_graph_stack w;
         global_default_graph := global_default_graph w';
         graphs := graphs w'; sessions := sessions w';
         files := files w' |}.
Proof.
  intros Hcls Hh Hstack. rewrite hook_entry_stack in Hstack.
  unfold hook_entry in Hh. simpl in Hh.
  destruct supplied as [g|]; simpl in *.
  - eexists _, [EAssign "config"; EAssign "graph"; EMethod "build_model";
                EEnter g; EMethod "_init_global_step";
                ECall (tf_Variable "global_step"); EAssign "global_step"].
    run. rewrite Hcls. simpl. rewrite Hh. simpl.
    unfold tf.as_default_exit. rewrite Hstack. simpl.
    rewrite decide_True by done. simpl.
    split_and!; try done;
      intros Hb;
      repeat (apply elem_of_cons in Hb as [Hb|Hb]; [discriminate|]);
      by apply not_elem_of_nil in Hb.
  - eexists _, [EAssign "config"; ECall tf_get_default_graph; EAssign "graph";
                EMethod "build_model"; EEnter (tf.get_default_graph w);
                EMethod "_init_global_step";
                ECall (tf_Variable "global_step"); EAssign "global_step"].
    run. rewrite Hcls. simpl. rewrite Hh. simpl.
    unfold tf.as_default_exit. rewrite Hstack. simpl.
    rewrite decide_True by done. simpl.
    split_and!; try done;
      intros Hb;
      repeat (apply elem_of_cons in Hb as [Hb|Hb]; [discriminate|]);
      by apply not_elem_of_nil in Hb.
Qed.

(** X11.  When no graph is supplied, or the supplied graph is the
    ambient default graph, the initialization operation belongs to the
    model's own graph and initializes every variable the saver tracks,
    the global step among them. *)
Theorem init_op_covers_model_in_ambient_graph cls h cfg supplied w o' w' :
  override_init_graph cls = Some h →
  h (hook_entry cfg supplied w).1 (hook_entry cfg supplied w).2
    = (Return (), (o', w')) →
  respects_scope (hook_entry cfg supplied w).2 w' →
  the_graph supplied w = tf.get_default_graph w →
  ∃ st sv op v,
    construct cls cfg supplied w = (Return (), st) ∧
    saver (self st) = Some sv ∧
    init_op (self st) = Some op ∧
    op_graph op = saver_graph sv ∧
    (∀ u, u ∈ saver_var_list sv → u ∈ op_initializes op) ∧
    global_step (hook_entry cfg supplied w).1 = Some v ∧
    v ∈ op_initializes op.
Proof.
  intros Hcls Hh Hscope Hg.
  destruct (global_step_in_graph cfg supplied w) as (v & Hgs & Hv).
  apply (proj2 (proj2 Hscope)) in Hv.
  eexists _, _, _, v. split.
  { eapply construct_returns; eassumption. }
  split; [reflexivity|]. split; [reflexivity|].
  split; [simpl; by rewrite Hg|].
  split.
  { intros u Hu. simpl in *. rewrite Hg in Hu. apply elem_of_app. by left. }
  split; [exact Hgs|].
  simpl. apply elem_of_app. left. by rewrite <- Hg.
Qed.

(** ** The round trip *)

(** X12.  For a checkpoint directory written with one trailing
    separator, [save] followed by [load] with the same arguments is a
    round trip: both return, and every variable the saver tracks has in
    the session loaded into the value it had in the session saved from;
    the mode is then [RETRAIN]. *)
Theorem round_trip_with_trailing_separator
    sess1 sess2 ckpt_dir st base sv gs s1 s2 step values :
  base ≠ "" →
  os_path.endswith_sep base = false →
  resolves ckpt_dir (self st) (base +:+ "/") →
  saver (self st) = Some sv →
  global_step (self st) = Some gs →
  sessions (world st) !! sess1 = Some s1 →
  tf.Session_run_variable s1 gs = Return step →
  saver_graph sv = sess_graph s1 →
  tf.collect s1 (saver_var_list sv) = Return values →
  sessions (world st) !! sess2 = Some s2 →
  saver_graph sv = sess_graph s2 →
  ∃ st1 st2 s2',
    save sess1 ckpt_dir st = (Return (), st1) ∧
    load sess2 ckpt_dir st1 = (Return (), st2) ∧
    sessions (world st2) !! sess2 = Some s2' ∧
    (∀ v, v ∈ saver_var_list sv →
          sess_values s2' !! var_name v = sess_values s1 !! var_name v) ∧
    mode (self st2) = Some RETRAIN.
Proof.
  intros Hne Hend Hr Hsv Hgs Hs1 Hstep Hg1 Hcol Hs2 Hg2.
  eapply save_then_load_when_directories_agree; try eassumption.
  by apply state_file_trailing_separator.
Qed.

(** ** The further properties on the model of [Example] *)

Lemma configured_directory_is_the_default_witness :
  config (self (Example.model (Example.with_dir "ckpt/")))
    = Some (Example.with_dir "ckpt/") ∧
  (load 2 None (Example.model (Example.with_dir "ckpt/"))).1
    = (load 2 (Some "ckpt/") (Example.model (Example.with_dir "ckpt/"))).1 ∧
  world (save 1 None (Example.model (Example.with_dir "ckpt/"))).2
    = world (save 1 (Some "ckpt/") (Example.model (Example.with_dir "ckpt/"))).2.
Proof.
  assert (H : config (self (Example.model (Example.with_dir "ckpt/")))
              = Some (Example.with_dir "ckpt/")) by (vm_compute; reflexivity).
  split; [exact H|].
  destruct (configured_directory_is_the_default 2
              (Example.model (Example.with_dir "ckpt/"))
              (Example.with_dir "ckpt/") "ckpt/" H eq_refl) as (H1 & _).
  destruct (configured_directory_is_the_default 1
              (Example.model (Example.with_dir "ckpt/"))
              (Example.with_dir "ckpt/") "ckpt/" H eq_refl)
    as (_ & _ & _ & _ & _ & _ & H2 & _).
  split; [exact H1 | exact H2].
Defined.

Lemma save_touches_only_files_witness :
  (save 1 None (Example.model Example.without_dir)).1
    = Raise (AssertionError "`ckpt_dir` is None!") ∧
  world (save 1 None (Example.model Example.without_dir)).2
    = world (Example.model Example.without_dir).
Proof.
  assert (H : (save 1 None (Example.model Example.without_dir)).1
              = Raise (AssertionError "`ckpt_dir` is None!"))
    by (vm_compute; reflexivity).
  split; [exact H|].
  destruct (save_touches_only_files 1 None
              (Example.model Example.without_dir))
    as (_ & _ & _ & _ & _ & H1).
  exact (proj1 (H1 _ H)).
Defined.

Lemma failed_restore_surfaces_witness :
  ∃ st',
    load 3 None (Example.with_foreign_session (Example.with_dir "ckpt/"))
    = (Raise (ValueError "Tensor is not an element of this graph"), st') ∧
    mode (self st') = Some TRAIN.
Proof.
  eexists. split.
  - apply (failed_restore_surfaces 3 None
             (Example.with_foreign_session (Example.with_dir "ckpt/"))
             "ckpt/" "ckpt/-5"
             {| saver_graph := 0;
                saver_var_list :=
                  [mkVar 0 "global_step" 0%Z false;
                   mkVar 0 "weights" 3%Z true] |}
             {| sess_graph := 7; sess_values := ∅ |}).
    + exists (Example.with_dir "ckpt/"). split; vm_compute; reflexivity.
    + vm_compute; reflexivity.
    + discriminate.
    + vm_compute; reflexivity.
    + vm_compute; reflexivity.
    + vm_compute; reflexivity.
  - vm_compute; reflexivity.
Defined.

Lemma load_twice_witness :
  load 2 None (Example.saved (Example.with_dir "ckpt/"))
    = (Return (), Example.loaded (Example.with_dir "ckpt/")) ∧
  ∃ st2,
    load 2 None (Example.loaded (Example.with_dir "ckpt/")) = (Return (), st2) ∧
    world st2 = world (Example.loaded (Example.with_dir "ckpt/")).
Proof.
  assert (H : load 2 None (Example.saved (Example.with_dir "ckpt/"))
              = (Return (), Example.loaded (Example.with_dir "ckpt/")))
    by (vm_compute; reflexivity).
  split; [exact H|].
  destruct (load_twice _ _ _ _ H) as (st2 & H1 & _ & H2).
  exists st2. split; assumption.
Defined.

Lemma save_twice_witness :
  save 1 None (Example.model (Example.with_dir "ckpt/"))
    = (Return (), Example.saved (Example.with_dir "ckpt/")) ∧
  ∃ st2,
    save 1 None (Example.saved (Example.with_dir "ckpt/")) = (Return (), st2) ∧
    world st2 = world (Example.saved (Example.with_dir "ckpt/")).
Proof.
  assert (H : save 1 None (Example.model (Example.with_dir "ckpt/"))
              = (Return (), Example.saved (Example.with_dir "ckpt/")))
    by (vm_compute; reflexivity).
  split; [exact H|].
  destruct (save_twice _ _ _ _ H) as (st2 & H1 & _ & H2).
  exists st2. split; assumption.
Defined.

Lemma RETRAIN_is_kept_witness :
  mode (self (Example.loaded (Example.with_dir "ckpt/"))) = Some RETRAIN ∧
  mode (self (after_all [m_save 2 None; m_load 1 (Some "elsewhere");
                         m_predict 1 []]
                (Example.loaded (Example.with_dir "ckpt/")))) = Some RETRAIN.
Proof.
  assert (H : mode (self (Example.loaded (Example.with_dir "ckpt/")))
              = Some RETRAIN) by (vm_compute; reflexivity).
  split; [exact H | exact (RETRAIN_is_kept _ _ H)].
Defined.

Lemma construction_restores_default_graph_witness :
  default_graph_stack
    (world (construct Example.failing_cls (Example.with_dir "ckpt") (Some 7)
              Example.world0).2)
  = default_graph_stack Example.world0 ∧
  default_graph_stack
    (world (construct BaseModel_class (Example.with_dir "ckpt") (Some 7)
              Example.world0).2)
  = default_graph_stack Example.world0.
Proof.
  split.
  - exact (proj2 (construction_restores_default_graph Example.failing_cls
                    (Example.with_dir "ckpt") (Some 7) Example.world0)
             Example.failing_init_graph _ _ _ eq_refl eq_refl eq_refl).
  - exact (proj1 (construction_restores_default_graph BaseModel_class
                    (Example.with_dir "ckpt") (Some 7) Example.world0)
             eq_refl).
Defined.

Lemma failed_init_graph_propagates_witness :
  ∃ st,
    construct Example.failing_cls (Example.with_dir "ckpt") None Example.world0
    = (Raise (ValueError "Shapes are incompatible"), st) ∧
    self st = (hook_entry (Example.with_dir "ckpt") None Example.world0).1 ∧
    default_graph_stack (world st) = default_graph_stack Example.world0.
Proof.
  destruct (failed_init_graph_propagates Example.failing_cls
              Example.failing_init_graph (Example.with_dir "ckpt") None
              Example.world0 (ValueError "Shapes are incompatible") _ _
              eq_refl eq_refl eq_refl)
    as (st & events & H1 & H2 & _ & _ & _ & _ & _ & _ & _ & _ & _ & _
        & H3 & _).
  exists st. repeat split; assumption.
Defined.

Lemma init_op_covers_model_witness :
  the_graph None Example.world0 = tf.get_default_graph Example.world0 ∧
  ∃ st sv op,
    construct Example.cls (Example.with_dir "ckpt") None Example.world0
    = (Return (), st) ∧
    saver (self st) = Some sv ∧
    init_op (self st) = Some op ∧
    ∀ u, u ∈ saver_var_list sv → u ∈ op_initializes op.
Proof.
  split; [reflexivity|].
  destruct (init_op_covers_model_in_ambient_graph Example.cls
              Example.init_graph (Example.with_dir "ckpt") None Example.world0
              (Example.returned (Example.with_dir "ckpt") None).1
              (Example.returned (Example.with_dir "ckpt") None).2
              eq_refl eq_refl (Variable_new_respects_scope _ _ _ _) eq_refl)
    as (st & sv & op & v & H1 & H2 & H3 & _ & H4 & _).
  exists st, sv, op. repeat split; assumption.
Defined.

Lemma round_trip_with_trailing_separator_witness :
  ∃ st1 st2 s2',
    save 1 None (Example.model (Example.with_dir "ckpt/")) = (Return (), st1) ∧
    load 2 None st1 = (Return (), st2) ∧
    sessions (world st2) !! 2 = Some s2' ∧
    mode (self st2) = Some RETRAIN.
Proof.
  destruct (round_trip_with_trailing_separator 1 2 None
              (Example.model (Example.with_dir "ckpt/")) "ckpt"
              {| saver_graph := 0;
                 saver_var_list :=
                   [mkVar 0 "global_step" 0%Z false;
                    mkVar 0 "weights" 3%Z true] |}
              (mkVar 0 "global_step" 0%Z false)
              {| sess_graph := 0;
                 sess_values := <["global_step" := 5%Z]>
                                  (<["weights" := 42%Z]> ∅) |}
              {| sess_graph := 0;
                 sess_values := <["global_step" := 0%Z]>
                                  (<["weights" := 3%Z]> ∅) |}
              5%Z
              (<["global_step" := 5%Z]> (<["weights" := 42%Z]> ∅)))
    as (st1 & st2 & s2' & H1 & H2 & H3 & _ & H4).
  - discriminate.
  - reflexivity.
  - exists (Example.with_dir "ckpt/"). split; vm_compute; reflexivity.
  - vm_compute; reflexivity.
  - vm_compute; reflexivity.
  - vm_compute; reflexivity.
  - vm_compute; reflexivity.
  - reflexivity.
  - vm_compute; reflexivity.
  - vm_compute; reflexivity.
  - reflexivity.
  - exists st1, st2, s2'. repeat split; assumption.
Defined.
